(** * Streamline video platform: the SQLite schema/seed script and its health check

    A shallow embedding of [streaming_database/init_db.py] and
    [streaming_database/test_db.py].

    - [Py]       the Python builtins the two scripts call ([str] methods,
                 [os.path]), exceptions and the state-and-exception monad;
    - [hashlib]  SHA-256, used by [_hash_password];
    - [sqlite3]  the SQL statements the scripts execute, their meaning on a
                 store, and the connection/cursor of Python's [sqlite3];
    - [init_db]  the functions of [init_db.py];
    - [test_db]  the functions of [test_db.py];
    - then the properties of the specification.

    Strings are sequences of code points below 256.  Identifiers of SQL
    (table and column names) are compared exactly; every identifier of the
    two scripts is lower case. *)

From Stdlib Require Import ZArith String Ascii List Bool Lia DecimalString.
From stdpp Require Import base gmap strings list.
Import ListNotations.

Local Open Scope string_scope.
Local Open Scope Z_scope.

(* ====================================================================== *)
(** * Python builtins *)

Module Py.

(** ** [str] methods *)

(** [str.isspace] on one code point below 256:
    9..13, 28..32, 133 (NEL) and 160 (NBSP). *)
Definition isspace (c : ascii) : bool :=
  let n := N_of_ascii c in
  (((9 <=? n) && (n <=? 13)) || ((28 <=? n) && (n <=? 32)) || (n =? 133) || (n =? 160))%N.

Fixpoint lstrip (s : string) : string :=
  match s with
  | EmptyString => EmptyString
  | String c s' => if isspace c then lstrip s' else s
  end.

Fixpoint rstrip (s : string) : string :=
  match s with
  | EmptyString => EmptyString
  | String c s' =>
      match rstrip s' with
      | EmptyString => if isspace c then EmptyString else String c EmptyString
      | r => String c r
      end
  end.

(** [s.strip()] *)
Definition strip (s : string) : string := rstrip (lstrip s).

(** [all(p(c) for c in s)] *)
Fixpoint all_chars (p : ascii -> bool) (s : string) : bool :=
  match s with
  | EmptyString => true
  | String c s' => p c && all_chars p s'
  end.

(** [s.startswith(p)] *)
Fixpoint startswith (s p : string) : bool :=
  match p with
  | EmptyString => true
  | String c p' =>
      match s with
      | String c' s' => Ascii.eqb c' c && startswith s' p'
      | EmptyString => false
      end
  end.

(** [s[n:]] *)
Fixpoint drop_chars (n : nat) (s : string) : string :=
  match n, s with
  | O, _ => s
  | S n', String _ s' => drop_chars n' s'
  | S _, EmptyString => EmptyString
  end.

(** [s.split()]: the maximal runs of non-whitespace characters. *)
Fixpoint split_ws (s : string) : list string :=
  match s with
  | EmptyString => []
  | String c s' =>
      if isspace c then split_ws s'
      else
        match s' with
        | EmptyString => [String c EmptyString]
        | String c' _ =>
            if isspace c' then String c EmptyString :: split_ws s'
            else
              match split_ws s' with
              | w :: ws => String c w :: ws
              | [] => [String c EmptyString]
              end
        end
  end.

(** [s.split(sep)] for a one-character separator. *)
Fixpoint split_on (sep : ascii) (s : string) : list string :=
  match s with
  | EmptyString => [EmptyString]
  | String c s' =>
      if Ascii.eqb c sep then EmptyString :: split_on sep s'
      else
        match split_on sep s' with
        | w :: ws => String c w :: ws
        | [] => [String c EmptyString]
        end
  end.

(** [s.split(sep, 1)] for a one-character separator: at most one cut. *)
Fixpoint split_once (sep : ascii) (s : string) : list string :=
  match s with
  | EmptyString => [EmptyString]
  | String c s' =>
      if Ascii.eqb c sep then [EmptyString; s']
      else
        match split_once sep s' with
        | w :: ws => String c w :: ws
        | [] => [String c EmptyString]
        end
  end.

(** [sep.join(l)] *)
Fixpoint join (sep : string) (l : list string) : string :=
  match l with
  | [] => EmptyString
  | [w] => w
  | w :: ws => w ++ sep ++ join sep ws
  end.

Definition newline : ascii := Ascii.ascii_of_nat 10.
Definition carriage_return : ascii := Ascii.ascii_of_nat 13.
Definition nl : string := String newline EmptyString.
Definition dquote : string := String (Ascii.ascii_of_nat 34) EmptyString.

(** Iterating over a file opened in text mode ([for line in f]): universal
    newlines, so that "\n", "\r" and "\r\n" each end a line, and the line
    handed to the loop ends in "\n".  [cur] is the line read so far. *)
Fixpoint lines_from (cur : string) (s : string) : list string :=
  match s with
  | EmptyString => match cur with EmptyString => [] | _ => [cur] end
  | String c s' =>
      if Ascii.eqb c newline then (cur ++ nl) :: lines_from EmptyString s'
      else if Ascii.eqb c carriage_return then
        match s' with
        | String c' s'' =>
            if Ascii.eqb c' newline then (cur ++ nl) :: lines_from EmptyString s''
            else (cur ++ nl) :: lines_from EmptyString s'
        | EmptyString => [cur ++ nl]
        end
      else lines_from (cur ++ String c EmptyString) s'
  end.

Definition file_lines (content : string) : list string :=
  lines_from EmptyString content.

(** ASCII lower case of one character and of a string. *)
Definition lower_char (c : ascii) : ascii :=
  let n := N_of_ascii c in
  if ((65 <=? n) && (n <=? 90))%N then ascii_of_N (n + 32) else c.

Fixpoint lower (s : string) : string :=
  match s with
  | EmptyString => EmptyString
  | String c s' => String (lower_char c) (lower s')
  end.

Definition upper_char_of (c : ascii) : ascii :=
  let n := N_of_ascii c in
  if ((97 <=? n) && (n <=? 122))%N then ascii_of_N (n - 32) else c.

Fixpoint upper (s : string) : string :=
  match s with
  | EmptyString => EmptyString
  | String c s' => String (upper_char_of c) (upper s')
  end.

(** ** [os.path] (posixpath) *)

Definition slash : ascii := "/"%char.

(** [os.path.isabs] *)
Definition isabs (p : string) : bool := startswith p "/".

Definition endswith_slash (p : string) : bool :=
  match String.rev p with
  | String c _ => Ascii.eqb c slash
  | EmptyString => false
  end.

(** [os.path.join(a, b)] *)
Definition path_join (a b : string) : string :=
  if isabs b then b
  else if (String.eqb a EmptyString || endswith_slash a)%bool then a ++ b
  else a ++ "/" ++ b.

(** The loop of [posixpath.normpath]; [new_comps] is kept reversed. *)
Fixpoint norm_comps (initial_slashes : nat) (comps : list string)
    (new_comps : list string) : list string :=
  match comps with
  | [] => rev new_comps
  | comp :: rest =>
      if (String.eqb comp "" || String.eqb comp ".")%bool then
        norm_comps initial_slashes rest new_comps
      else if (negb (String.eqb comp "..")
               || (Nat.eqb initial_slashes 0 && match new_comps with [] => true | _ => false end)
               || match new_comps with top :: _ => String.eqb top ".." | [] => false end)%bool
      then norm_comps initial_slashes rest (comp :: new_comps)
      else norm_comps initial_slashes rest (tl new_comps)
  end.

Fixpoint repeat_string (n : nat) (s : string) : string :=
  match n with
  | O => EmptyString
  | S n' => s ++ repeat_string n' s
  end.

(** [posixpath.normpath] *)
Definition normpath (path : string) : string :=
  if String.eqb path "" then "."
  else
    let initial_slashes : nat :=
      if startswith path "/" then
        if (startswith path "//" && negb (startswith path "///"))%bool then 2%nat else 1%nat
      else 0%nat in
    let comps := norm_comps initial_slashes (split_on slash path) [] in
    let joined := repeat_string initial_slashes "/" ++ join "/" comps in
    if String.eqb joined "" then "." else joined.

(** [os.path.abspath], in a process whose working directory is [cwd]. *)
Definition abspath (cwd path : string) : string :=
  normpath (if isabs path then path else path_join cwd path).

(** ** Exceptions *)

Inductive exn : Type :=
| DatabaseError (msg : string)        (* sqlite3.DatabaseError *)
| OperationalError (msg : string)     (* sqlite3.OperationalError *)
| IntegrityError (msg : string)       (* sqlite3.IntegrityError *)
| RuntimeError (msg : string)
| FileNotFoundError (msg : string)
| AssertionError (msg : string)
| IndexError (msg : string)
| TypeError (msg : string)
| ValueError (msg : string)
| OSError (msg : string)
| Unmodelled (what : string).

(** [Unmodelled] is no exception of Python.  It is the outcome of a call
    into a library on an argument this file gives no meaning to: SQL text
    that is outside the statements read in [sqlite3] below.  The scripts
    never pass such text, and a theorem that concludes something of the
    program has a hypothesis or a case that excludes it. *)

(** [isinstance(e, sqlite3.Error)] *)
Definition is_sqlite_error (e : exn) : bool :=
  match e with
  | DatabaseError _ | OperationalError _ | IntegrityError _ => true
  | _ => false
  end.

(** ** State and exceptions *)

Inductive result (A : Type) : Type :=
| Ok (a : A)
| Raise (e : exn).
Arguments Ok {A} a.
Arguments Raise {A} e.

(** A computation over a state [S] that returns or raises; the state
    survives a raise, as the store survives a Python exception. *)
Definition M (S A : Type) : Type := S -> result A * S.

Definition ret {S A} (a : A) : M S A := fun s => (Ok a, s).

Definition bind {S A B} (m : M S A) (k : A -> M S B) : M S B :=
  fun s =>
    match m s with
    | (Ok a, s') => k a s'
    | (Raise e, s') => (Raise e, s')
    end.

Definition raise {S A} (e : exn) : M S A := fun s => (Raise e, s).

Definition get {S} : M S S := fun s => (Ok s, s).

Definition modify {S} (f : S -> S) : M S unit := fun s => (Ok tt, f s).

(** [try: body finally: fin] *)
Definition try_finally {S A} (body : M S A) (fin : M S unit) : M S A :=
  fun s =>
    match body s with
    | (r, s') =>
        match fin s' with
        | (Ok _, s'') => (r, s'')
        | (Raise e, s'') => (Raise e, s'')
        end
    end.

(** [try: body except (classes) as exc: handler] *)
Definition try_except {S A} (body : M S A) (caught : exn -> bool)
    (handler : exn -> M S A) : M S A :=
  fun s =>
    match body s with
    | (Ok a, s') => (Ok a, s')
    | (Raise e, s') => if caught e then handler e s' else (Raise e, s')
    end.

(** [for x in l: body x] *)
Fixpoint for_each {S A} (l : list A) (body : A -> M S unit) : M S unit :=
  match l with
  | [] => ret tt
  | x :: rest => bind (body x) (fun _ => for_each rest body)
  end.

(** [[f(x) for x in l]] *)
Fixpoint list_comp {S A B} (l : list A) (f : A -> M S B) : M S (list B) :=
  match l with
  | [] => ret []
  | x :: rest =>
      bind (f x) (fun y => bind (list_comp rest f) (fun ys => ret (y :: ys)))
  end.

(** [l[i]] *)
Definition index {S A} (l : list A) (i : nat) : M S A :=
  match nth_error l i with
  | Some a => ret a
  | None => raise (IndexError "list index out of range")
  end.

End Py.

Export Py.

Declare Scope py_scope.
Delimit Scope py_scope with py.
Notation "x <- c1 ;; c2" := (bind c1 (fun x => c2))
  (at level 100, c1 at next level, right associativity) : py_scope.
Notation "c1 ;; c2" := (bind c1 (fun _ => c2))
  (at level 100, right associativity) : py_scope.
Local Open Scope py_scope.


(* ====================================================================== *)
(** * [hashlib.sha256] (FIPS 180-4), on 32-bit words held in [Z] *)

Module hashlib.

Definition mask32 (x : Z) : Z := Z.land x 0xffffffff.
Definition add32 (a b : Z) : Z := mask32 (a + b).
Definition rotr (n x : Z) : Z :=
  Z.lor (Z.shiftr x n) (mask32 (Z.shiftl x (32 - n))).
Definition not32 (x : Z) : Z := Z.lxor x 0xffffffff.

Definition ch (x y z : Z) : Z := Z.lxor (Z.land x y) (Z.land (not32 x) z).
Definition maj (x y z : Z) : Z :=
  Z.lxor (Z.lxor (Z.land x y) (Z.land x z)) (Z.land y z).
Definition big_sigma0 (x : Z) : Z := Z.lxor (Z.lxor (rotr 2 x) (rotr 13 x)) (rotr 22 x).
Definition big_sigma1 (x : Z) : Z := Z.lxor (Z.lxor (rotr 6 x) (rotr 11 x)) (rotr 25 x).
Definition small_sigma0 (x : Z) : Z := Z.lxor (Z.lxor (rotr 7 x) (rotr 18 x)) (Z.shiftr x 3).
Definition small_sigma1 (x : Z) : Z := Z.lxor (Z.lxor (rotr 17 x) (rotr 19 x)) (Z.shiftr x 10).

Definition hashlib_vars : Type := Z * Z * Z * Z * Z * Z * Z * Z.

Definition is_prime (n : Z) : bool :=
  (1 <? n) && forallb (fun d => negb (n mod d =? 0)) (map Z.of_nat (seq 2 (Z.to_nat n - 2))).

(** The primes up to 311: the first 64. *)
Definition first_primes : list Z :=
  List.filter is_prime (map Z.of_nat (seq 2 310)).

(** The largest [r] in [lo, hi) with [r * r * r <= n], by bisection. *)
Fixpoint cube_root_between (fuel : nat) (lo hi n : Z) : Z :=
  match fuel with
  | O => lo
  | S fuel' =>
      let mid := (lo + hi) / 2 in
      if mid =? lo then lo
      else if mid * mid * mid <=? n then cube_root_between fuel' mid hi n
      else cube_root_between fuel' lo mid n
  end.

(** The round constants: the first 32 bits of the fractional parts of the
    cube roots of the first 64 primes. *)
Definition K : list Z :=
  Eval vm_compute in
    map (fun p => cube_root_between 64 0 (2 ^ 40) (p * 2 ^ 96) mod 2 ^ 32) first_primes.

(** The initial hash value: the first 32 bits of the fractional parts of
    the square roots of the first 8 primes. *)
Definition H0 : hashlib_vars :=
  Eval vm_compute in
    match map (fun p => Z.sqrt (p * 2 ^ 64) mod 2 ^ 32) (take 8 first_primes) with
    | [a; b; c; d; e; f; g; h] => (a, b, c, d, e, f, g, h)
    | _ => (0, 0, 0, 0, 0, 0, 0, 0)
    end.

(** [s.encode("utf-8")] on a string of ASCII characters: its bytes. *)
Fixpoint bytes_of (s : string) : list Z :=
  match s with
  | EmptyString => []
  | String c s' => Z.of_N (N_of_ascii c) :: bytes_of s'
  end.

(** The 8 bytes of [n], most significant first. *)
Definition be64 (n : Z) : list Z :=
  map (fun i => Z.land (Z.shiftr n (8 * i)) 0xff) [7; 6; 5; 4; 3; 2; 1; 0].

(** Padding: 0x80, zeros up to 56 modulo 64, then the bit length. *)
Definition pad (msg : list Z) : list Z :=
  let len := Z.of_nat (length msg) in
  let zeros := Z.to_nat ((55 - len) mod 64) in
  msg ++ [0x80] ++ repeat 0 zeros ++ be64 (8 * len).

Fixpoint words_of (fuel : nat) (bs : list Z) : list Z :=
  match fuel, bs with
  | S fuel', b0 :: b1 :: b2 :: b3 :: rest =>
      (b0 * 0x1000000 + b1 * 0x10000 + b2 * 0x100 + b3) :: words_of fuel' rest
  | _, _ => []
  end.

Fixpoint blocks_of (fuel : nat) (ws : list Z) : list (list Z) :=
  match fuel, ws with
  | _, [] => []
  | O, _ => []
  | S fuel', _ => take 16 ws :: blocks_of fuel' (drop 16 ws)
  end.

(** The message schedule: [w] holds W[0..t-1], [n] words are still to come. *)
Fixpoint schedule (n : nat) (w : list Z) : list Z :=
  match n with
  | O => w
  | S n' =>
      let t := length w in
      let at_ (k : nat) := nth (t - k) w 0 in
      schedule n'
        (w ++ [add32 (add32 (small_sigma1 (at_ 2%nat)) (at_ 7%nat))
                     (add32 (small_sigma0 (at_ 15%nat)) (at_ 16%nat))])
  end.

Definition round (v : hashlib_vars) (kw : Z * Z) : hashlib_vars :=
  let '(a, b, c, d, e, f, g, h) := v in
  let t1 := add32 (add32 (add32 h (big_sigma1 e)) (add32 (ch e f g) (fst kw))) (snd kw) in
  let t2 := add32 (big_sigma0 a) (maj a b c) in
  (add32 t1 t2, a, b, c, add32 d t1, e, f, g).

Definition compress (v : hashlib_vars) (block : list Z) : hashlib_vars :=
  let '(a, b, c, d, e, f, g, h) := v in
  let '(a', b', c', d', e', f', g', h') :=
    fold_left round (combine K (schedule 48 block)) v in
  (add32 a a', add32 b b', add32 c c', add32 d d',
   add32 e e', add32 f f', add32 g g', add32 h h').

Definition hex_digit (n : Z) : ascii :=
  if n <? 10 then ascii_of_N (Z.to_N (48 + n)) else ascii_of_N (Z.to_N (87 + n)).

Definition hex32 (x : Z) : string :=
  fold_right (fun i acc => String (hex_digit (Z.land (Z.shiftr x (4 * i)) 0xf)) acc)
    EmptyString [7; 6; 5; 4; 3; 2; 1; 0].

(** [hashlib.sha256(data).hexdigest()] *)
Definition sha256_hexdigest (data : list Z) : string :=
  let padded := pad data in
  let ws := words_of (length padded) padded in
  let '(a, b, c, d, e, f, g, h) :=
    fold_left compress (blocks_of (length ws) ws) H0 in
  hex32 a ++ hex32 b ++ hex32 c ++ hex32 d ++ hex32 e ++ hex32 f ++ hex32 g ++ hex32 h.

End hashlib.


(* ====================================================================== *)
(** * SQLite: stores, the statements of the two scripts, connections *)

Module sqlite3.

(** ** Stores *)

Inductive value : Type :=
| VNull
| VInt (n : Z)
| VText (s : string).

#[export] Instance value_eq_dec : EqDecision value.
Proof. solve_decision. Defined.

#[export] Instance value_countable : Countable value.
Proof.
  refine (inj_countable'
    (fun v => match v with
              | VNull => inl tt
              | VInt n => inr (inl n)
              | VText s => inr (inr s)
              end)
    (fun x => match x with
              | inl _ => VNull
              | inr (inl n) => VInt n
              | inr (inr s) => VText s
              end) _).
  intros []; reflexivity.
Defined.

(** SQL [a = b]: true only between equal non-NULL values. *)
Definition value_eqb (a b : value) : bool :=
  match a, b with
  | VInt x, VInt y => Z.eqb x y
  | VText x, VText y => String.eqb x y
  | _, _ => false
  end.

Definition is_null (v : value) : bool :=
  match v with VNull => true | _ => false end.

(** The [DEFAULT] clause of a column. *)
Inductive dflt : Type :=
| DfltNull
| DfltLit (v : value)
| DfltCurrentTimestamp.

(** A column, with the fields [PRAGMA table_info] reports for it. *)
Record column : Type := {
  c_name : string;
  c_type : string;
  c_notnull : bool;
  c_dflt : dflt;
  c_pk : Z
}.

(** [FOREIGN KEY (fk_column) REFERENCES fk_table(fk_ref) ON DELETE CASCADE] *)
Record fkey : Type := {
  fk_column : string;
  fk_table : string;
  fk_ref : string
}.

Record schema : Type := {
  s_columns : list column;
  s_rowid : option string;       (* the INTEGER PRIMARY KEY column, an alias of the rowid *)
  s_autoinc : bool;              (* AUTOINCREMENT *)
  s_unique : list (list string); (* UNIQUE and composite PRIMARY KEY constraints *)
  s_foreign : list fkey
}.

(** A row: its rowid, and its other fields by column name. *)
Record row : Type := {
  r_id : Z;
  r_data : list (string * value)
}.

(** A table: [t_seq] is its entry in [sqlite_sequence], the largest rowid
    an AUTOINCREMENT table has ever handed out. *)
Record table : Type := {
  t_schema : schema;
  t_rows : list row;
  t_seq : Z
}.

Record db : Type := {
  d_tables : gmap string table;
  d_indexes : gmap string (string * string)
}.

Definition empty_db : db := {| d_tables := ∅; d_indexes := ∅ |}.

Fixpoint assoc {A} (k : string) (l : list (string * A)) : option A :=
  match l with
  | [] => None
  | (k', a) :: l' => if String.eqb k' k then Some a else assoc k l'
  end.

Fixpoint alist_set {A} (k : string) (a : A) (l : list (string * A)) : list (string * A) :=
  match l with
  | [] => [(k, a)]
  | (k', a') :: l' =>
      if String.eqb k' k then (k', a) :: l' else (k', a') :: alist_set k a l'
  end.

Definition is_rowid (sch : schema) (c : string) : bool :=
  match s_rowid sch with
  | Some c' => String.eqb c' c
  | None => false
  end.

Definition has_column (sch : schema) (c : string) : bool :=
  existsb (fun col => String.eqb (c_name col) c) (s_columns sch).

(** The value a row holds in a column. *)
Definition field (sch : schema) (r : row) (c : string) : value :=
  if is_rowid sch c then VInt (r_id r)
  else match assoc c (r_data r) with
       | Some v => v
       | None => VNull
       end.

(** ** Statements *)

(** The conjuncts of the WHERE clauses in the two scripts. *)
Inductive cond : Type :=
| Eq (c : string) (v : value)        (* c = ? *)
| IsNotNull (c : string)             (* c IS NOT NULL *)
| LengthPositive (c : string).       (* LENGTH(c) > 0 *)

Inductive conflict : Type := OrAbort | OrIgnore | OrReplace.

(** A value of a VALUES list. *)
Inductive ival : Type :=
| Lit (v : value)
| CurrentTimestamp.

Inductive sql : Type :=
| PragmaForeignKeysOn
| CreateTableIfNotExists (name : string) (sch : schema)
| CreateIndexIfNotExists (idx tbl col : string)
| PragmaTableInfo (tbl : string)
| AlterTableAddColumn (tbl : string) (column_def : string)
| Insert (pol : conflict) (tbl : string) (cols : list string) (vals : list ival)
| Update (tbl : string) (sets : list (string * value)) (where_ : list cond)
| Select (cols : list string) (tbl : string) (where_ : list cond)
| SelectCount (tbl : string) (where_ : list cond)
| SelectTableNames   (* SELECT name FROM sqlite_master WHERE type='table' AND name NOT LIKE 'sqlite_%' *)
| SelectTableCount   (* SELECT COUNT( * ) FROM sqlite_master WHERE (the same) *)
| SelectSqliteVersion.

Definition cond_column (k : cond) : string :=
  match k with
  | Eq c _ | IsNotNull c | LengthPositive c => c
  end.

Definition holds (sch : schema) (r : row) (k : cond) : bool :=
  match k with
  | Eq c v => value_eqb (field sch r c) v
  | IsNotNull c => negb (is_null (field sch r c))
  | LengthPositive c =>
      match field sch r c with
      | VNull => false
      | VInt _ => true
      | VText s => negb (String.eqb s "")
      end
  end.

Definition matches (sch : schema) (conds : list cond) (r : row) : bool :=
  forallb (holds sch r) conds.

(** [name NOT LIKE 'sqlite_%']: LIKE folds ASCII case, [_] stands for any
    one character and [%] for any sequence. *)
Definition user_table (name : string) : bool :=
  negb (startswith (lower name) "sqlite" && (6 <? String.length name)%nat).

Definition eval_ival (now : string) (x : ival) : value :=
  match x with
  | Lit v => v
  | CurrentTimestamp => VText now
  end.

Definition string_of_Z (n : Z) : string := NilZero.string_of_int (Z.to_int n).

(** [p] occurs in [s]. *)
Fixpoint infix_of (p s : string) : bool :=
  startswith s p
  || match s with
     | String _ s' => infix_of p s'
     | EmptyString => false
     end.

(** The affinity of a column, from its declared type (rules 1 to 5 of
    "Determination Of Column Affinity"). *)
Inductive affinity : Type := AffInteger | AffText | AffBlob | AffReal | AffNumeric.

Definition affinity_of (type : string) : affinity :=
  let t := upper type in
  if infix_of "INT" t then AffInteger
  else if (infix_of "CHAR" t || infix_of "CLOB" t || infix_of "TEXT" t)%bool then AffText
  else if (infix_of "BLOB" t || String.eqb t "")%bool then AffBlob
  else if (infix_of "REAL" t || infix_of "FLOA" t || infix_of "DOUB" t)%bool then AffReal
  else AffNumeric.

Definition is_digit (c : ascii) : bool :=
  let n := N_of_ascii c in ((48 <=? n) && (n <=? 57))%N.

Definition max_int64 : Z := 9223372036854775807.

(** The integer a text converts to under INTEGER or NUMERIC affinity:
    decimal digits after an optional minus sign, within 64 bits. *)
Definition int_of_text (s : string) : option Z :=
  let digits := match s with String "-" s' => s' | _ => s end in
  if (negb (String.eqb digits "") && all_chars is_digit digits)%bool then
    match NilZero.int_of_string s with
    | Some i => if Z.abs (Z.of_int i) <=? max_int64 then Some (Z.of_int i) else None
    | None => None
    end
  else None.

(** The value stored in a column of the affinity [a] for the value [v] of
    a DEFAULT clause.  Under TEXT an integer becomes its decimal text;
    under INTEGER and NUMERIC a text that is a decimal integer becomes
    that integer.  Floating-point values are outside this embedding: a
    text that holds a digit without being a decimal integer, and any
    number under REAL, are left as they are here, and [parse_column_def]
    reads no definition that needs them. *)
Definition apply_affinity (a : affinity) (v : value) : value :=
  match a, v with
  | AffText, VInt n => VText (string_of_Z n)
  | (AffInteger | AffNumeric), VText s =>
      match int_of_text s with
      | Some n => VInt n
      | None => VText s
      end
  | _, _ => v
  end.

(** The value of a column that a row is not given: the default, with the
    affinity of the column applied.  CURRENT_TIMESTAMP is a text
    [YYYY-MM-DD HH:MM:SS], which no affinity changes. *)
Definition default_value (now : string) (col : column) : value :=
  match c_dflt col with
  | DfltNull => VNull
  | DfltLit v => apply_affinity (affinity_of (c_type col)) v
  | DfltCurrentTimestamp => VText now
  end.

(** The [dflt_value] field of [PRAGMA table_info]: the text of the default. *)
Definition dflt_text (d : dflt) : value :=
  match d with
  | DfltNull => VNull
  | DfltLit VNull => VText "NULL"
  | DfltLit (VInt n) => VText (string_of_Z n)
  | DfltLit (VText s) => VText ("'" ++ s ++ "'")
  | DfltCurrentTimestamp => VText "CURRENT_TIMESTAMP"
  end.

Fixpoint table_info_rows (cid : Z) (cols : list column) : list (list value) :=
  match cols with
  | [] => []
  | col :: rest =>
      [VInt cid; VText (c_name col); VText (c_type col);
       VInt (if c_notnull col then 1 else 0); dflt_text (c_dflt col); VInt (c_pk col)]
      :: table_info_rows (cid + 1) rest
  end.

(** ** The column definitions [ALTER TABLE ... ADD COLUMN] takes

    The definitions read here are, in the characters [A-Za-z0-9_'-] and
    the white space of SQL,

      name [type] {NOT NULL | DEFAULT literal}

    with at most one clause of each kind, a type of one word, and as
    literal [NULL], a decimal integer in canonical form or a quoted text
    without a quote in it.  This covers the three definitions
    [_create_schema] passes.  A name that is a reserved word is a syntax
    error; the words SQLite lets fall back to identifiers are names like
    any other.  Every other definition is [Outside]: SQLite accepts some
    of them (CHECK, REFERENCES, COLLATE, quoted names, expressions) and
    refuses others, and this file says nothing of them. *)

(** The 147 keywords of SQLite 3.40. *)
Definition sql_keywords : list string :=
  ["ABORT"; "ACTION"; "ADD"; "AFTER"; "ALL"; "ALTER"; "ALWAYS"; "ANALYZE"; "AND"; "AS";
   "ASC"; "ATTACH"; "AUTOINCREMENT"; "BEFORE"; "BEGIN"; "BETWEEN"; "BY"; "CASCADE"; "CASE";
   "CAST"; "CHECK"; "COLLATE"; "COLUMN"; "COMMIT"; "CONFLICT"; "CONSTRAINT"; "CREATE";
   "CROSS"; "CURRENT"; "CURRENT_DATE"; "CURRENT_TIME"; "CURRENT_TIMESTAMP"; "DATABASE";
   "DEFAULT"; "DEFERRABLE"; "DEFERRED"; "DELETE"; "DESC"; "DETACH"; "DISTINCT"; "DO";
   "DROP"; "EACH"; "ELSE"; "END"; "ESCAPE"; "EXCEPT"; "EXCLUDE"; "EXCLUSIVE"; "EXISTS";
   "EXPLAIN"; "FAIL"; "FILTER"; "FIRST"; "FOLLOWING"; "FOR"; "FOREIGN"; "FROM"; "FULL";
   "GENERATED"; "GLOB"; "GROUP"; "GROUPS"; "HAVING"; "IF"; "IGNORE"; "IMMEDIATE"; "IN";
   "INDEX"; "INDEXED"; "INITIALLY"; "INNER"; "INSERT"; "INSTEAD"; "INTERSECT"; "INTO";
   "IS"; "ISNULL"; "JOIN"; "KEY"; "LAST"; "LEFT"; "LIKE"; "LIMIT"; "MATCH";
   "MATERIALIZED"; "NATURAL"; "NO"; "NOT"; "NOTHING"; "NOTNULL"; "NULL"; "NULLS"; "OF";
   "OFFSET"; "ON"; "OR"; "ORDER"; "OTHERS"; "OUTER"; "OVER"; "PARTITION"; "PLAN";
   "PRAGMA"; "PRECEDING"; "PRIMARY"; "QUERY"; "RAISE"; "RANGE"; "RECURSIVE"; "REFERENCES";
   "REGEXP"; "REINDEX"; "RELEASE"; "RENAME"; "REPLACE"; "RESTRICT"; "RETURNING"; "RIGHT";
   "ROLLBACK"; "ROW"; "ROWS"; "SAVEPOINT"; "SELECT"; "SET"; "TABLE"; "TEMP"; "TEMPORARY";
   "THEN"; "TIES"; "TO"; "TRANSACTION"; "TRIGGER"; "UNBOUNDED"; "UNION"; "UNIQUE";
   "UPDATE"; "USING"; "VACUUM"; "VALUES"; "VIEW"; "VIRTUAL"; "WHEN"; "WHERE"; "WINDOW";
   "WITH"; "WITHOUT"].

(** The keywords that cannot stand for an identifier. *)
Definition reserved_keywords : list string :=
  ["ADD"; "ALL"; "ALTER"; "AND"; "AS"; "AUTOINCREMENT"; "BETWEEN"; "CASE"; "CHECK";
   "COLLATE"; "COMMIT"; "CONSTRAINT"; "CREATE"; "DEFAULT"; "DEFERRABLE"; "DELETE";
   "DISTINCT"; "DROP"; "ELSE"; "ESCAPE"; "EXCEPT"; "EXISTS"; "FOREIGN"; "FROM"; "GROUP";
   "HAVING"; "IN"; "INDEX"; "INSERT"; "INTERSECT"; "INTO"; "IS"; "ISNULL"; "JOIN"; "LIMIT";
   "NOT"; "NOTHING"; "NOTNULL"; "NULL"; "ON"; "OR"; "ORDER"; "PRIMARY"; "REFERENCES";
   "RETURNING"; "SELECT"; "SET"; "TABLE"; "THEN"; "TO"; "TRANSACTION"; "UNION"; "UNIQUE";
   "UPDATE"; "USING"; "VALUES"; "WHEN"; "WHERE"].

(** Keywords are recognised whatever their case. *)
Definition is_keyword (tok : string) : bool :=
  existsb (String.eqb (upper tok)) sql_keywords.

Definition is_reserved (tok : string) : bool :=
  existsb (String.eqb (upper tok)) reserved_keywords.

Definition is_word_char (c : ascii) : bool :=
  let n := N_of_ascii c in
  (((48 <=? n) && (n <=? 57)) || ((65 <=? n) && (n <=? 90))
   || ((97 <=? n) && (n <=? 122)) || (n =? 95))%N.

(** An identifier written without quotes: letters, digits and [_], not
    starting with a digit. *)
Definition is_identifier (s : string) : bool :=
  match s with
  | String c _ => negb (is_digit c) && all_chars is_word_char s
  | EmptyString => false
  end.

(** The white space of SQL: space, tab, line feed, form feed, carriage
    return.  [str.split] cuts at each of them. *)
Definition is_sql_space (c : ascii) : bool :=
  let n := N_of_ascii c in
  ((n =? 32) || (n =? 9) || (n =? 10) || (n =? 12) || (n =? 13))%N.

(** The characters of the definitions read here. *)
Definition is_def_char (c : ascii) : bool :=
  (is_word_char c || is_sql_space c || Ascii.eqb c "'" || Ascii.eqb c "-")%bool.

(** A table name the two statements of [_ensure_column] can carry between
    their keywords: an identifier that is no keyword and no name of
    SQLite's own. *)
Definition is_table_name (s : string) : bool :=
  (is_identifier s && negb (is_keyword s) && negb (startswith (lower s) "sqlite_"))%bool.

(** A decimal integer as SQLite prints it back: no sign but a minus, no
    leading zero, no [-0], within 64 bits. *)
Definition parse_integer (tok : string) : option Z :=
  let digits := match tok with String "-" s' => s' | _ => tok end in
  match digits with
  | String c rest =>
      if (all_chars is_digit digits
          && (negb (Ascii.eqb c "0") || (String.eqb rest "" && String.eqb digits tok)))%bool
      then int_of_text tok
      else None
  | EmptyString => None
  end.

(** The literal of a DEFAULT clause. *)
Definition parse_literal (tok : string) : option value :=
  if String.eqb tok "NULL" then Some VNull
  else
    match tok with
    | String "'" body =>
        match String.rev body with
        | String "'" inner =>
            if all_chars (fun c => negb (Ascii.eqb c "'")) inner
            then Some (VText (String.rev inner)) else None
        | _ => None
        end
    | _ =>
        match parse_integer tok with
        | Some n => Some (VInt n)
        | None => None
        end
    end.

(** The clauses after the type; [None] outside the clauses read here. *)
Fixpoint parse_constraints (toks : list string) (notnull : bool) (d : option dflt)
    : option (bool * option dflt) :=
  match toks with
  | [] => Some (notnull, d)
  | a :: b :: rest =>
      if (String.eqb (upper a) "NOT" && String.eqb (upper b) "NULL")%bool then
        if notnull then None else parse_constraints rest true d
      else if String.eqb (upper a) "DEFAULT" then
        match d, parse_literal b with
        | None, Some v => parse_constraints rest notnull (Some (DfltLit v))
        | _, _ => None
        end
      else None
  | _ => None
  end.

(** [PRAGMA table_info] prints the six standard type names in upper case. *)
Definition declared_type (ty : string) : string :=
  if existsb (String.eqb (upper ty)) ["ANY"; "BLOB"; "INT"; "INTEGER"; "REAL"; "TEXT"]
  then upper ty else ty.

(** A default that its column stores without a floating-point value:
    under REAL no number and no text with a digit; under INTEGER and
    NUMERIC a text with a digit only when it is a decimal integer. *)
Definition storable_default (ty : string) (d : option dflt) : bool :=
  match d with
  | Some (DfltLit (VInt _)) =>
      match affinity_of ty with AffReal => false | _ => true end
  | Some (DfltLit (VText s)) =>
      match affinity_of ty with
      | AffReal => all_chars (fun c => negb (is_digit c)) s
      | AffInteger | AffNumeric =>
          all_chars (fun c => negb (is_digit c)) s
          || match int_of_text s with Some _ => true | None => false end
      | _ => true
      end
  | _ => true
  end.

(** What SQLite makes of a column definition. *)
Inductive parsed_column : Type :=
| Column (col : column)     (* accepted, as this column *)
| Rejected (msg : string)   (* refused, with this message *)
| Outside.                  (* not read by this embedding *)

Definition parse_column_def (column_def : string) : parsed_column :=
  if negb (all_chars is_def_char column_def) then Outside
  else
    match split_ws column_def with
    | [] => Outside
    | name :: toks =>
        if negb (is_identifier name) then Outside
        else if is_reserved name then
          Rejected ("near " ++ dquote ++ name ++ dquote ++ ": syntax error")
        else
          let '(ty, rest) :=
            match toks with
            | t :: rest' =>
                if (is_identifier t && negb (is_keyword t))%bool then (t, rest') else ("", toks)
            | [] => ("", [])
            end in
          match parse_constraints rest false None with
          | Some (notnull, d) =>
              if storable_default ty d then
                Column {| c_name := name; c_type := declared_type ty; c_notnull := notnull;
                          c_dflt := match d with Some d' => d' | None => DfltNull end;
                          c_pk := 0 |}
              else Outside
          | None => Outside
          end
    end.

(** ** The meaning of a statement on a store *)

Definition set_table (name : string) (t : table) (d : db) : db :=
  {| d_tables := <[name := t]> (d_tables d); d_indexes := d_indexes d |}.

Definition with_rows (t : table) (rows : list row) (seq : Z) : table :=
  {| t_schema := t_schema t; t_rows := rows; t_seq := seq |}.

Definition max_rowid (rows : list row) : Z :=
  fold_right (fun r m => Z.max (r_id r) m) 0 rows.

(** The rowid SQLite chooses for a row inserted without one. *)
Definition next_rowid (t : table) : Z :=
  1 + Z.max (max_rowid (t_rows t)) (if s_autoinc (t_schema t) then t_seq t else 0).

(** The fields of an inserted row: the values given, the defaults of the
    columns left out; under OR REPLACE a NULL given for a NOT NULL column
    becomes the default. *)
Definition new_row_data (pol : conflict) (now : string) (sch : schema)
    (given : list (string * value)) : list (string * value) :=
  flat_map
    (fun col =>
       if is_rowid sch (c_name col) then []
       else
         [(c_name col,
           match assoc (c_name col) given with
           | Some VNull =>
               match pol with
               | OrReplace => if c_notnull col then default_value now col else VNull
               | _ => VNull
               end
           | Some v => v
           | None => default_value now col
           end)])
    (s_columns sch).

Definition notnull_ok (sch : schema) (r : row) : bool :=
  forallb (fun col => negb (c_notnull col && is_null (field sch r (c_name col))))
    (s_columns sch).

(** Two rows agree on a key: all its columns hold equal non-NULL values. *)
Definition same_key (sch : schema) (key : list string) (r1 r2 : row) : bool :=
  forallb (fun c => value_eqb (field sch r1 c) (field sch r2 c)) key.

Definition conflicts (sch : schema) (new old : row) : bool :=
  Z.eqb (r_id new) (r_id old) || existsb (fun key => same_key sch key new old) (s_unique sch).

(** Every foreign key of the row is NULL or names a row of the parent. *)
Definition fk_ok (d : db) (sch : schema) (r : row) : bool :=
  forallb
    (fun fk =>
       match field sch r (fk_column fk) with
       | VNull => true
       | v =>
           match d_tables d !! fk_table fk with
           | Some parent =>
               existsb (fun pr => value_eqb (field (t_schema parent) pr (fk_ref fk)) v)
                 (t_rows parent)
           | None => false
           end
       end)
    (s_foreign sch).

Definition no_such_table {A} (tbl : string) : result A :=
  Raise (OperationalError ("no such table: " ++ tbl)).

Definition no_such_column {A} (c : string) : result A :=
  Raise (OperationalError ("no such column: " ++ c)).

Definition exec_create_table (name : string) (sch : schema) (d : db) : result db :=
  match d_tables d !! name with
  | Some _ => Ok d
  | None => Ok (set_table name {| t_schema := sch; t_rows := []; t_seq := 0 |} d)
  end.

Definition exec_create_index (idx tbl col : string) (d : db) : result db :=
  match d_tables d !! tbl with
  | None => no_such_table tbl
  | Some t =>
      match d_indexes d !! idx with
      | Some _ => Ok d
      | None =>
          if has_column (t_schema t) col
          then Ok {| d_tables := d_tables d; d_indexes := <[idx := (tbl, col)]> (d_indexes d) |}
          else no_such_column col
      end
  end.

Definition add_column (col : column) (t : table) : table :=
  let sch := t_schema t in
  {| t_schema := {| s_columns := s_columns sch ++ [col]; s_rowid := s_rowid sch;
                    s_autoinc := s_autoinc sch; s_unique := s_unique sch;
                    s_foreign := s_foreign sch |};
     t_rows := map (fun r => {| r_id := r_id r;
                                r_data := alist_set (c_name col) (default_value "" col) (r_data r) |})
                   (t_rows t);
     t_seq := t_seq t |}.

(** A column of that name, up to the case of ASCII letters. *)
Definition has_column_nocase (sch : schema) (c : string) : bool :=
  existsb (fun col => String.eqb (lower (c_name col)) (lower c)) (s_columns sch).

Definition outside_sql {A} (what : string) : result A :=
  Raise (Unmodelled ("SQL outside the embedding: " ++ what)).

(** [ALTER TABLE tbl ADD COLUMN column_def].  The table is looked up
    before the definition is read.  A column that is there already, in any
    case, is refused; a NOT NULL column whose default is NULL is refused
    when the table holds a row. *)
Definition exec_alter_add_column (tbl column_def : string) (d : db) : result db :=
  if (negb (is_table_name tbl) || negb (all_chars (fun c => negb (Ascii.eqb c zero)) column_def))%bool
  then outside_sql column_def
  else
    match d_tables d !! tbl with
    | None => no_such_table tbl
    | Some t =>
        match parse_column_def column_def with
        | Outside => outside_sql column_def
        | Rejected msg => Raise (OperationalError msg)
        | Column col =>
            if has_column_nocase (t_schema t) (c_name col) then
              Raise (OperationalError ("duplicate column name: " ++ c_name col))
            else if (c_notnull col && is_null (default_value "" col)
                     && negb (match t_rows t with [] => true | _ => false end))%bool then
              Raise (OperationalError "Cannot add a NOT NULL column with default value NULL")
            else Ok (set_table tbl (add_column col t) d)
        end
    end.

Definition exec_insert (fk : bool) (now : string) (pol : conflict) (tbl : string)
    (cols : list string) (vals : list ival) (d : db) : result db :=
  match d_tables d !! tbl with
  | None => no_such_table tbl
  | Some t =>
      let sch := t_schema t in
      if negb (Nat.eqb (length cols) (length vals)) then
        Raise (OperationalError "the number of values does not match the columns")
      else
        match find (fun c => negb (has_column sch c)) cols with
        | Some c => Raise (OperationalError ("table " ++ tbl ++ " has no column named " ++ c))
        | None =>
            let given := combine cols (map (eval_ival now) vals) in
            let chosen :=
              match s_rowid sch with
              | Some c =>
                  match assoc c given with
                  | Some (VInt n) => Some n
                  | Some (VText _) => None
                  | _ => Some (next_rowid t)
                  end
              | None => Some (next_rowid t)
              end in
            match chosen with
            | None => Raise (IntegrityError "datatype mismatch")
            | Some rid =>
                let new := {| r_id := rid; r_data := new_row_data pol now sch given |} in
                let seq := if s_autoinc sch then Z.max (t_seq t) rid else t_seq t in
                let skipped := set_table tbl (with_rows t (t_rows t) seq) d in
                if negb (notnull_ok sch new) then
                  match pol with
                  | OrIgnore => Ok skipped
                  | _ => Raise (IntegrityError ("NOT NULL constraint failed: " ++ tbl))
                  end
                else
                  let stored :=
                    set_table tbl
                      (with_rows t
                         (List.filter (fun old => negb (conflicts sch new old)) (t_rows t) ++ [new])
                         seq) d in
                  let checked :=
                    if (fk && negb (fk_ok d sch new))%bool
                    then Raise (IntegrityError "FOREIGN KEY constraint failed")
                    else Ok stored in
                  if forallb (fun old => negb (conflicts sch new old)) (t_rows t) then checked
                  else
                    match pol with
                    | OrIgnore => Ok skipped
                    | OrReplace => checked
                    | OrAbort => Raise (IntegrityError ("UNIQUE constraint failed: " ++ tbl))
                    end
            end
        end
  end.

(** [SET c = v] on one row. *)
Definition assign (sch : schema) (r : row) (cv : string * value) : row :=
  if is_rowid sch (fst cv) then
    match snd cv with
    | VInt n => {| r_id := n; r_data := r_data r |}
    | _ => r
    end
  else {| r_id := r_id r; r_data := alist_set (fst cv) (snd cv) (r_data r) |}.

Definition assign_all (sch : schema) (sets : list (string * value)) (r : row) : row :=
  fold_left (assign sch) sets r.

(** The keys an UPDATE can break: those over a column it sets. *)
Definition touched_keys (sch : schema) (sets : list (string * value)) : list (list string) :=
  List.filter (fun key => existsb (fun c => existsb (fun cv => String.eqb (fst cv) c) sets) key)
    (s_unique sch).

Definition exec_update (fk : bool) (tbl : string) (sets : list (string * value))
    (conds : list cond) (d : db) : result db :=
  match d_tables d !! tbl with
  | None => no_such_table tbl
  | Some t =>
      let sch := t_schema t in
      match find (fun c => negb (has_column sch c)) (map fst sets ++ map cond_column conds) with
      | Some c => no_such_column c
      | None =>
          let rows' := map (fun r => if matches sch conds r then assign_all sch sets r else r)
                         (t_rows t) in
          let updated := map (assign_all sch sets) (List.filter (matches sch conds) (t_rows t)) in
          if negb (forallb (notnull_ok sch) updated) then
            Raise (IntegrityError ("NOT NULL constraint failed: " ++ tbl))
          else if negb (forallb (fun u =>
                           forallb (fun key =>
                                      (length (List.filter (same_key sch key u) rows') <=? 1)%nat)
                             (touched_keys sch sets)) updated) then
            Raise (IntegrityError ("UNIQUE constraint failed: " ++ tbl))
          else if (fk && negb (forallb (fk_ok d sch) updated))%bool then
            Raise (IntegrityError "FOREIGN KEY constraint failed")
          else Ok (set_table tbl (with_rows t rows' (t_seq t)) d)
      end
  end.

Definition selected (tbl : string) (cols : list string) (conds : list cond) (d : db)
    : result (schema * list row) :=
  match d_tables d !! tbl with
  | None => no_such_table tbl
  | Some t =>
      match find (fun c => negb (has_column (t_schema t) c)) (cols ++ map cond_column conds) with
      | Some c => no_such_column c
      | None => Ok (t_schema t, List.filter (matches (t_schema t) conds) (t_rows t))
      end
  end.

Definition table_names (d : db) : list string :=
  List.filter (fun name => user_table name) (map fst (map_to_list (d_tables d))).

Definition sqlite_version : string := "3.40.1".

(** [exec fk now q d]: the store after [q] and the rows [q] returns, with
    foreign keys enforced when [fk], at the time [now]. *)
Definition exec (fk : bool) (now : string) (q : sql) (d : db)
    : result (db * list (list value)) :=
  match q with
  | PragmaForeignKeysOn => Ok (d, [])
  | CreateTableIfNotExists name sch =>
      match exec_create_table name sch d with
      | Ok d' => Ok (d', [])
      | Raise e => Raise e
      end
  | CreateIndexIfNotExists idx tbl col =>
      match exec_create_index idx tbl col d with
      | Ok d' => Ok (d', [])
      | Raise e => Raise e
      end
  | PragmaTableInfo tbl =>
      if negb (is_table_name tbl) then outside_sql tbl
      else
        match d_tables d !! tbl with
        | Some t => Ok (d, table_info_rows 0 (s_columns (t_schema t)))
        | None => Ok (d, [])
        end
  | AlterTableAddColumn tbl column_def =>
      match exec_alter_add_column tbl column_def d with
      | Ok d' => Ok (d', [])
      | Raise e => Raise e
      end
  | Insert pol tbl cols vals =>
      match exec_insert fk now pol tbl cols vals d with
      | Ok d' => Ok (d', [])
      | Raise e => Raise e
      end
  | Update tbl sets conds =>
      match exec_update fk tbl sets conds d with
      | Ok d' => Ok (d', [])
      | Raise e => Raise e
      end
  | Select cols tbl conds =>
      match selected tbl cols conds d with
      | Ok (sch, rows) => Ok (d, map (fun r => map (field sch r) cols) rows)
      | Raise e => Raise e
      end
  | SelectCount tbl conds =>
      match selected tbl [] conds d with
      | Ok (_, rows) => Ok (d, [[VInt (Z.of_nat (length rows))]])
      | Raise e => Raise e
      end
  | SelectTableNames => Ok (d, map (fun name => [VText name]) (table_names d))
  | SelectTableCount => Ok (d, [[VInt (Z.of_nat (length (table_names d)))]])
  | SelectSqliteVersion => Ok (d, [[VText sqlite_version]])
  end.

(** ** Connections and cursors of Python's [sqlite3]

    A connection made by [sqlite3.connect(path)] controls transactions the
    legacy way ([isolation_level] is the empty string): the module opens a
    transaction before an INSERT, UPDATE, DELETE or REPLACE statement when
    none is open, and before no other statement; a statement executed
    outside a transaction is committed by SQLite as soon as it is done;
    [commit] makes the open transaction durable and [close] drops it.
    [c_disk] is the durable store, [c_tx] the store as the open
    transaction sees it, [c_rows] the rows the cursor has still to hand out. *)

Record connection : Type := {
  c_disk : db;
  c_tx : option db;
  c_foreign_keys : bool;
  c_now : string;
  c_rows : list (list value)
}.

(** [sqlite3.connect] on a database file holding [d], at the time [now]
    (the value of CURRENT_TIMESTAMP while the connection is open). *)
Definition connect (d : db) (now : string) : connection :=
  {| c_disk := d; c_tx := None; c_foreign_keys := false; c_now := now; c_rows := [] |}.

(** The store as the connection sees it. *)
Definition current (c : connection) : db :=
  match c_tx c with
  | Some w => w
  | None => c_disk c
  end.

Definition is_dml (q : sql) : bool :=
  match q with
  | Insert _ _ _ _ | Update _ _ _ => true
  | _ => false
  end.

Definition begin_if_dml (q : sql) (c : connection) : connection :=
  match c_tx c with
  | None =>
      if is_dml q then
        {| c_disk := c_disk c; c_tx := Some (c_disk c);
           c_foreign_keys := c_foreign_keys c; c_now := c_now c; c_rows := c_rows c |}
      else c
  | Some _ => c
  end.

(** The connection after a statement left the store [d'] and the rows [rows]. *)
Definition after_statement (c : connection) (d' : db) (rows : list (list value))
    : connection :=
  match c_tx c with
  | Some _ =>
      {| c_disk := c_disk c; c_tx := Some d';
         c_foreign_keys := c_foreign_keys c; c_now := c_now c; c_rows := rows |}
  | None =>
      {| c_disk := d'; c_tx := None;
         c_foreign_keys := c_foreign_keys c; c_now := c_now c; c_rows := rows |}
  end.

(** [cursor.execute(q)] (and [conn.execute(q)]) *)
Definition execute (q : sql) : M connection unit :=
  fun c =>
    match q with
    | PragmaForeignKeysOn =>
        (Ok tt,
         {| c_disk := c_disk c; c_tx := c_tx c;
            c_foreign_keys := match c_tx c with None => true | Some _ => c_foreign_keys c end;
            c_now := c_now c; c_rows := [] |})
    | _ =>
        let c1 := begin_if_dml q c in
        match exec (c_foreign_keys c1) (c_now c1) q (current c1) with
        | Ok (d', rows) => (Ok tt, after_statement c1 d' rows)
        | Raise e => (Raise e, after_statement c1 (current c1) [])
        end
    end.

(** [cursor.fetchone()] *)
Definition fetchone : M connection (option (list value)) :=
  fun c =>
    match c_rows c with
    | [] => (Ok None, c)
    | r :: rest =>
        (Ok (Some r),
         {| c_disk := c_disk c; c_tx := c_tx c;
            c_foreign_keys := c_foreign_keys c; c_now := c_now c; c_rows := rest |})
    end.

(** [cursor.fetchall()] *)
Definition fetchall : M connection (list (list value)) :=
  fun c =>
    (Ok (c_rows c),
     {| c_disk := c_disk c; c_tx := c_tx c;
        c_foreign_keys := c_foreign_keys c; c_now := c_now c; c_rows := [] |}).

(** [conn.commit()] *)
Definition commit : M connection unit :=
  fun c =>
    (Ok tt,
     {| c_disk := current c; c_tx := None;
        c_foreign_keys := c_foreign_keys c; c_now := c_now c; c_rows := c_rows c |}).

(** [conn.close()]: an open transaction is rolled back. *)
Definition close : M connection unit :=
  fun c =>
    (Ok tt,
     {| c_disk := c_disk c; c_tx := None;
        c_foreign_keys := c_foreign_keys c; c_now := c_now c; c_rows := [] |}).

(** [cursor.fetchone()[0]]: subscripting [None] is a [TypeError]. *)
Definition fetchone_0 : M connection value :=
  row <- fetchone ;;
  match row with
  | Some r => index r 0
  | None => raise (TypeError "'NoneType' object is not subscriptable")
  end.

(** [int(v)] on a value read from a row. *)
Definition int_of_value {S} (v : value) : M S Z :=
  match v with
  | VInt n => ret n
  | VText s =>
      match NilZero.int_of_string s with
      | Some i => ret (Z.of_int i)
      | None => raise (ValueError "invalid literal for int()")
      end
  | VNull => raise (TypeError "int() argument must not be NoneType")
  end.

End sqlite3.

Export sqlite3.

(* ====================================================================== *)
(** * init_db.py *)

(** What a process finds around it: the directory of the two scripts
    ([os.path.dirname(os.path.abspath(__file__))], the same for both), the
    environment variable SQLITE_DB and the working directory. *)
Record environ : Type := {
  BASE_DIR : string;
  SQLITE_DB : option string;
  cwd : string
}.

(** A file is a text file or an SQLite database. *)
Inductive file : Type :=
| Text (content : string)
| Database (d : db).

(** The file system: the files by path, the paths that cannot be opened
    for writing, the clock, and the scripts launched with [subprocess.run]
    so far. *)
Record world : Type := {
  w_files : gmap string file;
  w_unwritable : gset string;
  w_now : string;
  w_launched : list string
}.

Definition set_file (path : string) (f : file) (w : world) : world :=
  {| w_files := <[path := f]> (w_files w); w_unwritable := w_unwritable w;
     w_now := w_now w; w_launched := w_launched w |}.

(** [os.path.exists] *)
Definition path_exists (path : string) : M world bool :=
  fun w => (Ok (bool_decide (is_Some (w_files w !! path))), w).

(** [with open(path, "w", encoding="utf-8") as f: f.write(content)] *)
Definition write_file (path content : string) : M world unit :=
  fun w =>
    if bool_decide (path ∈ w_unwritable w) then
      (Raise (OSError ("Permission denied: " ++ path)), w)
    else (Ok tt, set_file path (Text content) w).

(** [open(path, "r", encoding="utf-8")], read whole; the pages of a
    database do not decode. *)
Definition read_file (path : string) : M world string :=
  fun w =>
    match w_files w !! path with
    | Some (Text content) => (Ok content, w)
    | Some (Database _) => (Raise (ValueError "the file does not decode as utf-8"), w)
    | None => (Raise (FileNotFoundError ("No such file or directory: " ++ path)), w)
    end.

(** [conn = sqlite3.connect(path)] followed by [work] on that connection:
    the database file holds what the connection made durable.  A file that
    is not there yet, or is empty, is an empty database; a path that cannot
    be written cannot be opened, and text is not a database. *)
Definition with_connection {A} (path : string) (work : M connection A) : M world A :=
  fun w =>
    if bool_decide (path ∈ w_unwritable w) then
      (Raise (OperationalError "unable to open database file"), w)
    else
      let opened :=
        match w_files w !! path with
        | Some (Database d) => Some d
        | Some (Text content) => if String.eqb content "" then Some empty_db else None
        | None => Some empty_db
        end in
      match opened with
      | None => (Raise (DatabaseError "file is not a database"), w)
      | Some d =>
          match work (connect d (w_now w)) with
          | (r, c) => (r, set_file path (Database (c_disk c)) w)
          end
      end.

Module init_db.

Definition DEFAULT_DB_FILENAME : string := "myapp.db".

(** Lines 29-33: the path of the database file. *)
Definition DB_PATH (e : environ) : string :=
  match SQLITE_DB e with
  | Some env_db_path =>
      if String.eqb env_db_path "" then path_join (BASE_DIR e) DEFAULT_DB_FILENAME
      else abspath (cwd e) env_db_path
  | None => path_join (BASE_DIR e) DEFAULT_DB_FILENAME
  end.

(** [x in l] on values read from rows. *)
Definition py_in (v : value) (l : list value) : bool :=
  existsb (fun x => bool_decide (x = v)) l.

Definition _ensure_column (table column_def : string) : M connection unit :=
  column_name <- index (split_ws column_def) 0 ;;
  execute (PragmaTableInfo table) ;;
  rows <- fetchall ;;
  existing_columns <- list_comp rows (fun row => index row 1) ;;
  if negb (py_in (VText column_name) existing_columns)
  then execute (AlterTableAddColumn table column_def)
  else ret tt.

Definition col (name type : string) (notnull : bool) (d : dflt) (pk : Z) : column :=
  {| c_name := name; c_type := type; c_notnull := notnull; c_dflt := d; c_pk := pk |}.

Definition app_info_schema : schema :=
  {| s_columns :=
       [col "id" "INTEGER" false DfltNull 1;
        col "key" "TEXT" true DfltNull 0;
        col "value" "TEXT" false DfltNull 0;
        col "created_at" "TIMESTAMP" false DfltCurrentTimestamp 0];
     s_rowid := Some "id"; s_autoinc := true;
     s_unique := [["key"]];
     s_foreign := [] |}.

Definition users_schema : schema :=
  {| s_columns :=
       [col "id" "INTEGER" false DfltNull 1;
        col "username" "TEXT" true DfltNull 0;
        col "email" "TEXT" true DfltNull 0;
        col "password_hash" "TEXT" false DfltNull 0;
        col "full_name" "TEXT" false DfltNull 0;
        col "is_active" "INTEGER" true (DfltLit (VInt 1)) 0;
        col "created_at" "TIMESTAMP" false DfltCurrentTimestamp 0];
     s_rowid := Some "id"; s_autoinc := true;
     s_unique := [["username"]; ["email"]];
     s_foreign := [] |}.

Definition categories_schema : schema :=
  {| s_columns :=
       [col "id" "INTEGER" false DfltNull 1;
        col "name" "TEXT" true DfltNull 0;
        col "description" "TEXT" false DfltNull 0;
        col "created_at" "TIMESTAMP" false DfltCurrentTimestamp 0];
     s_rowid := Some "id"; s_autoinc := true;
     s_unique := [["name"]];
     s_foreign := [] |}.

Definition videos_schema : schema :=
  {| s_columns :=
       [col "id" "INTEGER" false DfltNull 1;
        col "title" "TEXT" true DfltNull 0;
        col "description" "TEXT" false DfltNull 0;
        col "slug" "TEXT" true DfltNull 0;
        col "video_url" "TEXT" true DfltNull 0;
        col "thumbnail_url" "TEXT" false DfltNull 0;
        col "duration_seconds" "INTEGER" false DfltNull 0;
        col "is_published" "INTEGER" true (DfltLit (VInt 1)) 0;
        col "created_at" "TIMESTAMP" false DfltCurrentTimestamp 0];
     s_rowid := Some "id"; s_autoinc := true;
     s_unique := [["slug"]];
     s_foreign := [] |}.

Definition video_categories_schema : schema :=
  {| s_columns :=
       [col "video_id" "INTEGER" true DfltNull 1;
        col "category_id" "INTEGER" true DfltNull 2];
     s_rowid := None; s_autoinc := false;
     s_unique := [["video_id"; "category_id"]];
     s_foreign :=
       [{| fk_column := "video_id"; fk_table := "videos"; fk_ref := "id" |};
        {| fk_column := "category_id"; fk_table := "categories"; fk_ref := "id" |}] |}.

Definition watch_history_schema : schema :=
  {| s_columns :=
       [col "id" "INTEGER" false DfltNull 1;
        col "user_id" "INTEGER" true DfltNull 0;
        col "video_id" "INTEGER" true DfltNull 0;
        col "progress_seconds" "INTEGER" true (DfltLit (VInt 0)) 0;
        col "completed" "INTEGER" true (DfltLit (VInt 0)) 0;
        col "last_watched_at" "TIMESTAMP" false DfltCurrentTimestamp 0];
     s_rowid := Some "id"; s_autoinc := true;
     s_unique := [["user_id"; "video_id"]];
     s_foreign :=
       [{| fk_column := "user_id"; fk_table := "users"; fk_ref := "id" |};
        {| fk_column := "video_id"; fk_table := "videos"; fk_ref := "id" |}] |}.

Definition _create_schema : M connection unit :=
  execute (CreateTableIfNotExists "app_info" app_info_schema) ;;
  execute (CreateTableIfNotExists "users" users_schema) ;;
  _ensure_column "users" "password_hash TEXT" ;;
  _ensure_column "users" "full_name TEXT" ;;
  _ensure_column "users" "is_active INTEGER NOT NULL DEFAULT 1" ;;
  execute (CreateTableIfNotExists "categories" categories_schema) ;;
  execute (CreateTableIfNotExists "videos" videos_schema) ;;
  execute (CreateTableIfNotExists "video_categories" video_categories_schema) ;;
  execute (CreateTableIfNotExists "watch_history" watch_history_schema) ;;
  execute (CreateIndexIfNotExists "idx_videos_slug" "videos" "slug") ;;
  execute (CreateIndexIfNotExists "idx_watch_history_user_id" "watch_history" "user_id") ;;
  execute (CreateIndexIfNotExists "idx_watch_history_video_id" "watch_history" "video_id").

Definition _hash_password (password : string) : string :=
  hashlib.sha256_hexdigest (hashlib.bytes_of password).

Definition entries : list (string * string) :=
  [("project_name", "streaming_database");
   ("version", "0.2.0");
   ("author", "Demo Seed");
   ("description",
    "SQLite database for the Streamline Video Platform (streaming metadata, users, history).");
   ("schema", "users, categories, videos, video_categories, watch_history, app_info")].

(** INSERT OR REPLACE INTO app_info (key, value) VALUES (?, ?) *)
Definition app_info_upsert (key value : string) : sql :=
  Insert OrReplace "app_info" ["key"; "value"] [Lit (VText key); Lit (VText value)].

Definition _seed_app_info : M connection unit :=
  for_each entries (fun kv => execute (app_info_upsert (fst kv) (snd kv))).

Definition username : string := "demo_user".
Definition email : string := "demo@example.com".
Definition full_name : string := "Demo User".
Definition password_hash : string := Eval vm_compute in _hash_password "password123".

Definition _seed_demo_user : M connection Z :=
  (* Insert if missing *)
  execute (Insert OrIgnore "users"
             ["username"; "email"; "password_hash"; "full_name"; "is_active"]
             [Lit (VText username); Lit (VText email); Lit (VText password_hash);
              Lit (VText full_name); Lit (VInt 1)]) ;;
  (* Update to keep data fresh/idempotent *)
  execute (Update "users"
             [("email", VText email); ("password_hash", VText password_hash);
              ("full_name", VText full_name); ("is_active", VInt 1)]
             [Eq "username" (VText username)]) ;;
  execute (Select ["id"] "users" [Eq "username" (VText username)]) ;;
  row <- fetchone ;;
  match row with
  | None => raise (RuntimeError "Failed to seed demo user.")
  | Some r => v <- index r 0 ;; int_of_value v
  end.

(** [{k: v for (v, k) in rows}] *)
Fixpoint dict_of_rows {S} (rows : list (list value)) (acc : gmap value value)
    : M S (gmap value value) :=
  match rows with
  | [] => ret acc
  | [v; k] :: rest => dict_of_rows rest (<[k := v]> acc)
  | _ :: _ => raise (ValueError "cannot unpack the row into two names")
  end.

Definition categories : list (string * string) :=
  [("Action", "High-energy movies and series filled with stunts and chases.");
   ("Drama", "Character-driven stories with emotional stakes.");
   ("Comedy", "Light-hearted content to make you laugh.");
   ("Sci-Fi", "Speculative science fiction and futuristic adventures.");
   ("Documentary", "Non-fictional, informative films and series.");
   ("Family", "Family-friendly movies and shows.")].

Definition _seed_categories : M connection (gmap value value) :=
  for_each categories
    (fun nd => execute (Insert OrIgnore "categories" ["name"; "description"]
                          [Lit (VText (fst nd)); Lit (VText (snd nd))])) ;;
  execute (Select ["id"; "name"] "categories" []) ;;
  rows <- fetchall ;;
  dict_of_rows rows ∅.

Record video : Type := {
  slug : string;
  title : string;
  description : string;
  video_url : string;
  thumbnail_url : string;
  duration_seconds : Z;
  video_categories : list string
}.

Definition mk_video (slug title description : string) (duration_seconds : Z)
    (cats : list string) : video :=
  {| slug := slug; title := title; description := description;
     video_url := "/videos/" ++ slug ++ ".mp4";
     thumbnail_url := "/thumbnails/" ++ slug ++ ".jpg";
     duration_seconds := duration_seconds; video_categories := cats |}.

Definition videos : list video :=
  [mk_video "galaxy-odyssey" "Galaxy Odyssey"
     "A crew of explorers travels through distant galaxies on a risky mission."
     5400 ["Sci-Fi"; "Action"];
   mk_video "urban-comedy-night" "Urban Comedy Night"
     "Stand-up comedians take the stage for a night of laughs."
     3600 ["Comedy"];
   mk_video "deep-sea-mysteries" "Deep Sea Mysteries"
     "A documentary exploring the most remote parts of the ocean."
     4200 ["Documentary"];
   mk_video "city-of-shadows" "City of Shadows"
     "A gritty crime drama set in a neon-lit metropolis."
     4800 ["Drama"; "Action"];
   mk_video "cosmic-frontier" "Cosmic Frontier"
     "A serialized sci-fi show following a frontier space station."
     2700 ["Sci-Fi"];
   mk_video "family-road-trip" "Family Road Trip"
     "A heartwarming story of a family rediscovering each other on the road."
     5400 ["Family"; "Comedy"];
   mk_video "kitchen-stories" "Kitchen Stories"
     "A cozy cooking show sharing recipes and stories."
     1500 ["Documentary"; "Family"];
   mk_video "edge-of-reality" "Edge of Reality"
     "A mind-bending sci-fi thriller about simulated worlds."
     6000 ["Sci-Fi"; "Drama"];
   mk_video "laugh-out-loud" "Laugh Out Loud"
     "A curated collection of hilarious sketches."
     1800 ["Comedy"];
   mk_video "planet-earthways" "Planet Earthways"
     "Stunning visuals showcase nature across the globe."
     3600 ["Documentary"; "Family"]].

(** The body of [for video in videos]. *)
Definition seed_video (category_ids : gmap value value) (v : video) : M connection unit :=
  execute (Insert OrIgnore "videos"
             ["slug"; "title"; "description"; "video_url"; "thumbnail_url";
              "duration_seconds"; "is_published"]
             [Lit (VText (slug v)); Lit (VText (title v)); Lit (VText (description v));
              Lit (VText (video_url v)); Lit (VText (thumbnail_url v));
              Lit (VInt (duration_seconds v)); Lit (VInt 1)]) ;;
  (* Fetch id to create join-table entries *)
  execute (Select ["id"] "videos" [Eq "slug" (VText (slug v))]) ;;
  row <- fetchone ;;
  match row with
  | None => raise (RuntimeError ("Failed to seed video with slug '" ++ slug v ++ "'"))
  | Some r =>
      v0 <- index r 0 ;;
      video_id <- int_of_value v0 ;;
      for_each (video_categories v)
        (fun cat_name =>
           match category_ids !! VText cat_name with
           | None | Some VNull => ret tt
           | Some cat_id =>
               execute (Insert OrIgnore "video_categories" ["video_id"; "category_id"]
                          [Lit (VInt video_id); Lit cat_id])
           end)
  end.

Definition _seed_videos (category_ids : gmap value value)
    : M connection (gmap value value) :=
  for_each videos (seed_video category_ids) ;;
  execute (Select ["id"; "slug"] "videos" []) ;;
  rows <- fetchall ;;
  dict_of_rows rows ∅.

Definition samples : list (string * Z * Z) :=
  [("galaxy-odyssey", 1200, 0);
   ("deep-sea-mysteries", 2100, 0);
   ("urban-comedy-night", 3500, 1);
   ("family-road-trip", 1800, 0);
   ("edge-of-reality", 900, 0)].

(** INSERT OR REPLACE INTO watch_history
      (user_id, video_id, progress_seconds, completed, last_watched_at)
    VALUES (?, ?, ?, ?, CURRENT_TIMESTAMP) *)
Definition watch_history_upsert (user_id : Z) (video_id : value)
    (progress_seconds completed : Z) : sql :=
  Insert OrReplace "watch_history"
    ["user_id"; "video_id"; "progress_seconds"; "completed"; "last_watched_at"]
    [Lit (VInt user_id); Lit video_id; Lit (VInt progress_seconds);
     Lit (VInt completed); CurrentTimestamp].

Definition _seed_watch_history (demo_user_id : Z) (video_ids : gmap value value)
    : M connection unit :=
  for_each samples
    (fun s =>
       let '(slug, progress_seconds, completed) := s in
       match video_ids !! VText slug with
       | None | Some VNull => ret tt
       | Some video_id =>
           execute (watch_history_upsert demo_user_id video_id progress_seconds completed)
       end).

(** Lines 457-501: the work done on the connection, and the statistics it
    prints (tables, users, categories, videos, watch history). *)
Definition seed_and_commit : M connection (list value) :=
  (* Ensure foreign key constraints are enforced *)
  execute PragmaForeignKeysOn ;;
  (* Schema and seeds *)
  _create_schema ;;
  _seed_app_info ;;
  demo_user_id <- _seed_demo_user ;;
  category_ids <- _seed_categories ;;
  video_ids <- _seed_videos category_ids ;;
  _seed_watch_history demo_user_id video_ids ;;
  commit ;;
  (* Basic statistics *)
  execute SelectTableCount ;;
  table_count <- fetchone_0 ;;
  execute (SelectCount "users" []) ;;
  user_count <- fetchone_0 ;;
  execute (SelectCount "categories" []) ;;
  category_count <- fetchone_0 ;;
  execute (SelectCount "videos" []) ;;
  video_count <- fetchone_0 ;;
  execute (SelectCount "watch_history" []) ;;
  history_count <- fetchone_0 ;;
  ret [table_count; user_count; category_count; video_count; history_count].

(** [try: ... finally: conn.close()] *)
Definition on_connection : M connection (list value) :=
  try_finally seed_and_commit close.

(** The four lines of db_connection.txt. *)
Definition connection_file_content (db_path : string) : string :=
  let connection_string := "sqlite:///" ++ db_path in
  "# SQLite connection methods:" ++ nl
  ++ "# Python: sqlite3.connect('" ++ db_path ++ "')" ++ nl
  ++ "# Connection string: " ++ connection_string ++ nl
  ++ "# File path: " ++ db_path ++ nl.

Definition any_exception (e : exn) : bool := true.

Definition _write_connection_files (e : environ) : M world unit :=
  let db_path := abspath (cwd e) (DB_PATH e) in
  (* db_connection.txt *)
  try_except
    (write_file (path_join (BASE_DIR e) "db_connection.txt")
       (connection_file_content db_path))
    any_exception (fun _ => ret tt) ;;
  (* db_visualizer/sqlite.env *)
  try_except
    (write_file (path_join (path_join (BASE_DIR e) "db_visualizer") "sqlite.env")
       ("export SQLITE_DB=" ++ dquote ++ db_path ++ dquote ++ nl))
    any_exception (fun _ => ret tt).

Definition initialize_database (e : environ) : M world unit :=
  with_connection (DB_PATH e) on_connection ;;
  (* Write connection helpers after successful initialization *)
  _write_connection_files e.

(** Running the script: the exit status of the process. *)
Definition script (e : environ) : M world Z :=
  fun w =>
    match initialize_database e w with
    | (Ok _, w') => (Ok 0, w')
    | (Raise _, w') => (Ok 1, w')
    end.

(** One run of the schema and seed procedure on a store, at the time
    [now]: what it returned or raised, and the store that is durable after
    the connection is closed. *)
Definition run (now : string) (d : db) : result (list value) * db :=
  match on_connection (connect d now) with
  | (r, c) => (r, c_disk c)
  end.

End init_db.

(* ====================================================================== *)
(** * test_db.py *)

Module test_db.

Definition CONNECTION_FILE (e : environ) : string :=
  path_join (BASE_DIR e) "db_connection.txt".

Definition INIT_SCRIPT (e : environ) : string :=
  path_join (BASE_DIR e) "init_db.py".

(** [subprocess.run([sys.executable, INIT_SCRIPT], cwd=BASE_DIR, check=False)]:
    the launch is recorded and init_db.py runs in the directory BASE_DIR. *)
Definition subprocess_run_init (e : environ) : M world Z :=
  modify (fun w =>
            {| w_files := w_files w; w_unwritable := w_unwritable w; w_now := w_now w;
               w_launched := w_launched w ++ [INIT_SCRIPT e] |}) ;;
  init_db.script {| BASE_DIR := BASE_DIR e; SQLITE_DB := SQLITE_DB e; cwd := BASE_DIR e |}.

Definition _run_init_db (e : environ) : M world unit :=
  found <- path_exists (INIT_SCRIPT e) ;;
  if negb found then
    raise (FileNotFoundError ("init_db.py not found at " ++ INIT_SCRIPT e))
  else
    returncode <- subprocess_run_init e ;;
    if negb (returncode =? 0) then
      raise (RuntimeError ("init_db.py failed with exit code " ++ string_of_Z returncode))
    else ret tt.

(** The body of [for line in f]; the state is (db_path, connection_string).
    A line that starts with either prefix holds a colon, so that
    [split(":", 1)] has an item 1. *)
Definition scan_line (st : option string * option string) (line : string)
    : option string * option string :=
  let stripped := strip line in
  if startswith stripped "# File path:" then
    (Some (strip (nth 1 (split_once ":" stripped) "")), snd st)
  else if startswith stripped "# Connection string:" then
    (fst st, Some (strip (nth 1 (split_once ":" stripped) "")))
  else st.

(** [not s] on an optional string: [None] and the empty string are false. *)
Definition falsy (s : option string) : bool :=
  match s with
  | None => true
  | Some s' => String.eqb s' ""
  end.

(** Lines 53-74: from the text of db_connection.txt to the path. *)
Definition parse_connection_file (e : environ) (content : string) : result string :=
  let '(db_path, connection_string) :=
    fold_left scan_line (file_lines content) (None, None) in
  let db_path :=
    match connection_string with
    | Some cs =>
        if (falsy db_path && negb (falsy connection_string)
            && startswith cs "sqlite:///")%bool
        then Some (drop_chars (String.length "sqlite:///") cs)
        else db_path
    | None => db_path
    end in
  match db_path with
  | Some p =>
      if String.eqb p "" then
        Raise (RuntimeError "Unable to determine database path from db_connection.txt. Expected a line starting with '# File path:'.")
      else Ok (abspath (cwd e) p)
  | None =>
      Raise (RuntimeError "Unable to determine database path from db_connection.txt. Expected a line starting with '# File path:'.")
  end.

Definition _get_db_path_from_connection_file (e : environ) : M world string :=
  found <- path_exists (CONNECTION_FILE e) ;;
  (if negb found then _run_init_db e else ret tt) ;;
  found <- path_exists (CONNECTION_FILE e) ;;
  if negb found then
    raise (FileNotFoundError "db_connection.txt is still missing after initialization.")
  else
    content <- read_file (CONNECTION_FILE e) ;;
    match parse_connection_file e content with
    | Ok p => ret p
    | Raise x => raise x
    end.

Definition _assert_tables_exist (required_tables : list string) : M connection unit :=
  execute SelectTableNames ;;
  rows <- fetchall ;;
  names <- list_comp rows (fun row => index row 0) ;;
  let existing : gset value := list_to_set names in
  let missing := List.filter (fun t => bool_decide (VText t ∉ existing)) required_tables in
  match missing with
  | [] => ret tt
  | _ => raise (AssertionError ("Missing required tables: " ++ join ", " missing))
  end.

(** [v < k] between a value read from a row and an integer. *)
Definition lt_int {S} (v : value) (k : Z) : M S bool :=
  match v with
  | VInt n => ret (n <? k)
  | _ => raise (TypeError "'<' not supported between these instances")
  end.

(** [f"{v}"] *)
Definition format_value (v : value) : string :=
  match v with
  | VNull => "None"
  | VInt n => string_of_Z n
  | VText s => s
  end.

Definition _assert_seed_data : M connection unit :=
  (* At least one user and specifically demo_user with a non-empty password_hash *)
  execute (SelectCount "users" []) ;;
  user_count <- fetchone_0 ;;
  too_few <- lt_int user_count 1 ;;
  if too_few then
    raise (AssertionError "Expected at least one user in the users table.")
  else
  execute (SelectCount "users"
             [Eq "username" (VText "demo_user"); IsNotNull "password_hash";
              LengthPositive "password_hash"]) ;;
  demo_user_rows <- fetchone_0 ;;
  too_few <- lt_int demo_user_rows 1 ;;
  if too_few then
    raise (AssertionError
             "Expected a seeded demo user with a hashed password (username 'demo_user').")
  else
  (* Several categories *)
  execute (SelectCount "categories" []) ;;
  category_count <- fetchone_0 ;;
  too_few <- lt_int category_count 3 ;;
  if too_few then
    raise (AssertionError
             ("Expected several categories, found " ++ format_value category_count ++ "."))
  else
  (* 8-12 videos seeded *)
  execute (SelectCount "videos" []) ;;
  video_count <- fetchone_0 ;;
  too_few <- lt_int video_count 8 ;;
  if too_few then
    raise (AssertionError
             ("Expected at least 8 seeded videos, found " ++ format_value video_count ++ "."))
  else
  (* Some watch_history rows for demo_user *)
  execute (Select ["id"] "users" [Eq "username" (VText "demo_user")]) ;;
  demo_row <- fetchone ;;
  match demo_row with
  | None => raise (AssertionError "demo_user not found when checking watch_history.")
  | Some r =>
      v <- index r 0 ;;
      demo_user_id <- int_of_value v ;;
      execute (SelectCount "watch_history" [Eq "user_id" (VInt demo_user_id)]) ;;
      history_count <- fetchone_0 ;;
      too_few <- lt_int history_count 1 ;;
      if too_few then
        raise (AssertionError "Expected at least one watch_history row for demo_user.")
      else ret tt
  end.

Definition required_tables : list string :=
  ["users"; "categories"; "videos"; "video_categories"; "watch_history"; "app_info"].

(** Lines 160-184: the checks on the opened database. *)
Definition check_database (db_path : string) : M world Z :=
  with_connection db_path
    (execute SelectSqliteVersion ;;
     version <- fetchone_0 ;;
     (* Validate schema *)
     _assert_tables_exist required_tables ;;
     (* Validate seed data presence *)
     _assert_seed_data ;;
     close) ;;
  ret 0.

Definition caught_by_main (x : exn) : bool :=
  match x with
  | DatabaseError _ | OperationalError _ | IntegrityError _
  | FileNotFoundError _ | RuntimeError _ | AssertionError _ => true
  | _ => false
  end.

Definition main (e : environ) : M world Z :=
  try_except
    (db_path <- _get_db_path_from_connection_file e ;;
     (* If the database file itself is missing, try initialization once *)
     found <- path_exists db_path ;;
     if negb found then
       _run_init_db e ;;
       db_path <- _get_db_path_from_connection_file e ;;
       found <- path_exists db_path ;;
       if negb found then ret 1 else check_database db_path
     else check_database db_path)
    caught_by_main
    (fun _ => ret 1).

End test_db.

(* ====================================================================== *)
(** * Vocabulary of the statements *)

(** A path without line breaks. *)
Definition no_linebreak (p : string) : bool :=
  all_chars (fun c => negb (Ascii.eqb c newline) && negb (Ascii.eqb c carriage_return)) p.

(** A path the descriptor file can carry: absolute, normalised as
    [os.path.abspath] leaves it, on one line, with no whitespace at its end. *)
Definition plain_path (p : string) : Prop :=
  isabs p = true /\ normpath p = p /\ no_linebreak p = true /\ rstrip p = p.

(** The connection with other rows waiting in the cursor. *)
Definition set_rows (c : connection) (rows : list (list value)) : connection :=
  {| c_disk := c_disk c; c_tx := c_tx c; c_foreign_keys := c_foreign_keys c;
     c_now := c_now c; c_rows := rows |}.

(** A statement that only reads. *)
Definition reads (q : sql) : bool :=
  match q with
  | PragmaTableInfo _ | Select _ _ _ | SelectCount _ _
  | SelectTableNames | SelectTableCount | SelectSqliteVersion => true
  | _ => false
  end.

(** The store one run leaves behind when it starts from nothing. *)
Definition cold_start (now : string) : db := snd (init_db.run now empty_db).










(** [m] keeps [I]: from a connection where [I] holds, [m] ends, returning
    or raising, in a connection where [I] holds. *)
Definition keeps {A} (I : connection -> Prop) (m : M connection A) : Prop :=
  forall c, I c -> I (snd (m c)).

(** A property of the stores of a connection, blind to the cursor. *)
Definition of_stores (I : connection -> Prop) : Prop :=
  forall c c', c_disk c' = c_disk c -> c_tx c' = c_tx c -> I c -> I c'.

(** The table a statement writes. *)
Definition writes (q : sql) : option string :=
  match q with
  | CreateTableIfNotExists name _ => Some name
  | AlterTableAddColumn tbl _ => Some tbl
  | Insert _ tbl _ _ => Some tbl
  | Update tbl _ _ => Some tbl
  | _ => None
  end.









(** The users row [_seed_demo_user] inserts. *)
Definition demo_user_row (id : Z) (now : string) : row :=
  {| r_id := id;
     r_data := [("username", VText init_db.username); ("email", VText init_db.email);
                ("password_hash", VText init_db.password_hash);
                ("full_name", VText init_db.full_name); ("is_active", VInt 1);
                ("created_at", VText now)] |}.

(** The SET clause of [_seed_demo_user], and a row after it. *)
Definition demo_user_sets : list (string * value) :=
  [("email", VText init_db.email); ("password_hash", VText init_db.password_hash);
   ("full_name", VText init_db.full_name); ("is_active", VInt 1)].

Definition refreshed (r : row) : row := assign_all init_db.users_schema demo_user_sets r.





(** A users table that holds one row: somebody else under the email of
    the demo user. *)
Definition email_taken : table :=
  {| t_schema := init_db.users_schema;
     t_rows := [ {| r_id := 1;
                    r_data := [("username", VText "alice"); ("email", VText init_db.email);
                               ("password_hash", VNull); ("full_name", VText "Alice");
                               ("is_active", VInt 1);
                               ("created_at", VText "2025-12-31 08:00:00")] |} ];
     t_seq := 1 |}.


(** A store that holds the table [t] as its users table and nothing else. *)
Definition users_only (t : table) : db :=
  {| d_tables := {[ "users" := t ]}; d_indexes := ∅ |}.

(** The table [name] is in the store the connection sees. *)
Definition has_table (name : string) (c : connection) : Prop :=
  is_Some (d_tables (current c) !! name).

(** Whenever [m] returns, [Q] holds of the connection it leaves. *)
Definition returns {A} (Q : connection -> Prop) (m : M connection A) : Prop :=
  forall c a c', m c = (Ok a, c') -> Q c'.

(** No transaction is open on the connection. *)
Definition autocommit (c : connection) : Prop := c_tx c = None.

(** The tables [_create_schema] declares. *)
Definition declared_tables : list string :=
  ["app_info"; "users"; "categories"; "videos"; "video_categories"; "watch_history"].

(** The statistics [initialize_database] reads after the commit. *)
Definition statistics : M connection (list value) :=
  execute SelectTableCount ;;
  table_count <- fetchone_0 ;;
  execute (SelectCount "users" []) ;;
  user_count <- fetchone_0 ;;
  execute (SelectCount "categories" []) ;;
  category_count <- fetchone_0 ;;
  execute (SelectCount "videos" []) ;;
  video_count <- fetchone_0 ;;
  execute (SelectCount "watch_history" []) ;;
  history_count <- fetchone_0 ;;
  ret [table_count; user_count; category_count; video_count; history_count].

(** The durable store is [d0] and the tables the statistics count are in
    the store the connection sees. *)
Definition counted_tables_over (d0 : db) (c : connection) : Prop :=
  c_disk c = d0
  /\ has_table "users" c /\ has_table "categories" c
  /\ has_table "videos" c /\ has_table "watch_history" c.

(** The path [p] names a file of the world [w]. *)
Definition exists_in (w : world) (p : string) : Prop := is_Some (w_files w !! p).

(** [w'] holds every file of [w] and records the same launches. *)
Definition grows (w w' : world) : Prop :=
  w_launched w' = w_launched w /\ forall p, exists_in w p -> exists_in w' p.

(** From [w] to [w'], init_db.py was launched [n] times and nothing else. *)
Definition launches (e : environ) (n : nat) (w w' : world) : Prop :=
  w_launched w' = (w_launched w ++ repeat (test_db.INIT_SCRIPT e) n)%list.

(** How often [_run_init_db] launches init_db.py in the world [w]: once
    when the script is there. *)
Definition one_launch (e : environ) (w : world) : nat :=
  if bool_decide (exists_in w (test_db.INIT_SCRIPT e)) then 1%nat else 0%nat.

(** An exception [main] turns into the exit status 1. *)
Definition gives_up {A} (r : result A) : Prop :=
  match r with
  | Ok _ => True
  | Raise x => test_db.caught_by_main x = true
  end.

(** The [except] clause of [main]: an exception it catches becomes the
    exit status 1. *)
Definition exit_status (out : result Z * world) : result Z * world :=
  match out with
  | (Raise x, s) => (if test_db.caught_by_main x then Ok 1 else Raise x, s)
  | (Ok code, s) => (Ok code, s)
  end.

(** A directory that holds the two scripts and nothing else. *)
Definition fresh_checkout (base : string) (now : string) : world :=
  {| w_files := {[ path_join base "init_db.py" := Text "#!/usr/bin/env python3";
                   path_join base "test_db.py" := Text "#!/usr/bin/env python3" ]};
     w_unwritable := ∅; w_now := now; w_launched := [] |}.

(** The rows of a table of a store; none when the table is missing. *)
Definition rows_of (d : db) (name : string) : list row :=
  match d_tables d !! name with
  | Some t => t_rows t
  | None => []
  end.

(** The path of db_visualizer/sqlite.env. *)
Definition ENV_FILE (e : environ) : string :=
  path_join (path_join (BASE_DIR e) "db_visualizer") "sqlite.env".

(** What the cold-start scenario expects of a store seeded at [now]. *)
Definition cold_start_contents (now : string) (d : db) : Prop :=
  length (table_names d) = 6%nat
  /\ (forall name, In name (table_names d) <-> In name declared_tables)
  /\ rows_of d "users" = [demo_user_row 1 now]
  /\ init_db.password_hash <> ""
  /\ length (rows_of d "categories") = 6%nat
  /\ length (rows_of d "videos") = 10%nat
  /\ length (rows_of d "watch_history") = 5%nat
  /\ Forall (fun r => field init_db.watch_history_schema r "user_id" = VInt 1)
        (rows_of d "watch_history").















(** The table [name] of the store holds a row of the rowid [id]. *)
Definition has_id (d : db) (name : string) (id : Z) : Prop :=
  exists t r, d_tables d !! name = Some t /\ In r (t_rows t) /\ r_id r = id.






(** The table [name] is one a script sees in sqlite_master: it is in the
    store and its name is not one of SQLite's own. *)
Definition listed (d : db) (name : string) : bool :=
  bool_decide (is_Some (d_tables d !! name)) && user_table name.







(** The lines [_get_db_path_from_connection_file] recognises, and the
    value it reads from one: what follows the first colon, stripped. *)
Definition is_file_path_line (line : string) : bool :=
  startswith (strip line) "# File path:".

Definition is_connection_string_line (line : string) : bool :=
  startswith (strip line) "# Connection string:".

Definition line_value (line : string) : string :=
  strip (nth 1 (split_once ":" (strip line)) "").

(** The RuntimeError of a descriptor that names no path. *)
Definition no_path : exn :=
  RuntimeError "Unable to determine database path from db_connection.txt. Expected a line starting with '# File path:'.".

(** A table of one user, made before users had more columns. *)
Definition early_users : table :=
  {| t_schema :=
       {| s_columns := [init_db.col "id" "INTEGER" false DfltNull 1;
                        init_db.col "username" "TEXT" true DfltNull 0;
                        init_db.col "Email" "TEXT" false DfltNull 0];
          s_rowid := Some "id"; s_autoinc := true;
          s_unique := [["username"]]; s_foreign := [] |};
     t_rows := [{| r_id := 7;
                   r_data := [("username", VText "alice");
                              ("Email", VText "alice@example.com")] |}];
     t_seq := 7 |}.



(*PREDICATES*)

(* ====================================================================== *)
(** * Properties *)

(** ** Test vectors of the builtins *)

Example split_ws_column_def :
  split_ws "is_active INTEGER NOT NULL DEFAULT 1"
  = ["is_active"; "INTEGER"; "NOT"; "NULL"; "DEFAULT"; "1"].
Proof. reflexivity. Qed.

Example normpath_example : normpath "/srv//app/./data/../myapp.db" = "/srv/app/myapp.db".
Proof. reflexivity. Qed.

Example sha256_abc :
  hashlib.sha256_hexdigest (hashlib.bytes_of "abc")
  = "ba7816bf8f01cfea414140de5dae2223b00361a396177a9cb410ff61f20015ad".
Proof. vm_compute. reflexivity. Qed.

Example sha256_empty :
  hashlib.sha256_hexdigest (hashlib.bytes_of "")
  = "e3b0c44298fc1c149afbf4c8996fb92427ae41e4649b934ca495991b7852b855".
Proof. vm_compute. reflexivity. Qed.

(* ---------------------------------------------------------------------- *)
(** ** Strings *)

#[local] Arguments String.append : simpl nomatch.

Lemma append_assoc (a b c : string) : (a ++ b) ++ c = a ++ (b ++ c).
Proof. induction a as [|x a IH]; simpl; [reflexivity | now rewrite IH]. Qed.

Lemma append_nil_r (a : string) : a ++ "" = a.
Proof. induction a as [|x a IH]; simpl; [reflexivity | now rewrite IH]. Qed.

Lemma append_inv_head (a x y : string) : a ++ x = a ++ y -> x = y.
Proof. induction a as [|c a IH]; simpl; intros H; [exact H | injection H; auto]. Qed.

Lemma app_nonempty_r (a b : string) : b <> "" -> a ++ b <> "".
Proof. destruct a; simpl; [auto | discriminate]. Qed.

Lemma all_chars_app p a b : all_chars p (a ++ b) = all_chars p a && all_chars p b.
Proof.
  induction a as [|x a IH]; simpl; [reflexivity|]. rewrite IH. now rewrite andb_assoc.
Qed.

Lemma lines_from_line (a rest cur : string) :
  no_linebreak a = true ->
  lines_from cur (a ++ String newline rest) = (cur ++ a ++ nl) :: lines_from "" rest.
Proof.
  revert cur. induction a as [|x a IH]; intros cur H.
  - reflexivity.
  - simpl in H. apply andb_prop in H as [Hx Ha]. apply andb_prop in Hx as [Hn Hr].
    simpl. destruct (Ascii.eqb x newline); [discriminate|].
    destruct (Ascii.eqb x carriage_return); [discriminate|].
    rewrite IH by exact Ha. now rewrite append_assoc.
Qed.

Lemma lines_from_nl (a rest cur : string) :
  no_linebreak a = true ->
  lines_from cur (a ++ nl ++ rest) = (cur ++ a ++ nl) :: lines_from "" rest.
Proof. apply lines_from_line. Qed.

Lemma rstrip_spaces_only (s : string) :
  all_chars isspace s = true -> rstrip s = "".
Proof.
  induction s as [|x s IH]; simpl; [reflexivity|].
  intros H. apply andb_prop in H as [Hx Hs]. now rewrite IH, Hx.
Qed.

Lemma rstrip_app_keep (a b : string) :
  rstrip b <> "" -> rstrip (a ++ b) = a ++ rstrip b.
Proof.
  intros Hb. induction a as [|x a IH]; simpl; [reflexivity|].
  rewrite IH. destruct (a ++ rstrip b) eqn:E; [|reflexivity].
  destruct a; simpl in E; [contradiction | discriminate].
Qed.

Lemma rstrip_app_spaces (a ws : string) :
  all_chars isspace ws = true -> rstrip (a ++ ws) = rstrip a.
Proof.
  intros H. induction a as [|x a IH]; simpl.
  - now apply rstrip_spaces_only.
  - now rewrite IH.
Qed.

Lemma rstrip_keep_line (a : string) :
  rstrip a = a -> a <> "" -> rstrip (a ++ nl) = a.
Proof. intros Ha Hne. now rewrite rstrip_app_spaces, Ha. Qed.

Lemma rstrip_fixed_app (a b : string) :
  rstrip b = b -> b <> "" -> rstrip (a ++ b) = a ++ b.
Proof. intros Hb Hne. rewrite rstrip_app_keep; now rewrite Hb. Qed.

Lemma isabs_inv p : isabs p = true -> exists q, p = String "/" q.
Proof.
  destruct p as [|x p]; intros H; [vm_compute in H; discriminate H|].
  unfold isabs in H. simpl in H.
  destruct (Ascii.eqb_spec x "/"%char) as [->|]; [|discriminate H].
  now exists p.
Qed.

Lemma abspath_absolute cwd p : isabs p = true -> abspath cwd p = normpath p.
Proof. intros H. unfold abspath. now rewrite H. Qed.

(** A relative name joined to a directory follows it, after a slash when
    the directory needs one. *)
Lemma path_join_relative (a b : string) :
  isabs b = false ->
  path_join a b = a ++ (if (String.eqb a "" || endswith_slash a)%bool then "" else "/") ++ b.
Proof.
  intros H. unfold path_join. rewrite H.
  now destruct (String.eqb a "" || endswith_slash a)%bool.
Qed.

Lemma env_file_is_not_the_descriptor (e : environ) :
  path_join (path_join (BASE_DIR e) "db_visualizer") "sqlite.env" <> test_db.CONNECTION_FILE e.
Proof.
  unfold test_db.CONNECTION_FILE.
  rewrite !path_join_relative by reflexivity.
  rewrite !append_assoc. intros H.
  apply append_inv_head, append_inv_head in H.
  destruct (String.eqb _ "" || endswith_slash _)%bool; discriminate H.
Qed.

(* ---------------------------------------------------------------------- *)
(** ** The descriptor file: what is written is what is read *)

Section DescriptorLines.

Variable p : string.
Hypothesis Habs : isabs p = true.
Hypothesis Hr : rstrip p = p.

Lemma path_nonempty : p <> "".
Proof using Habs. destruct (isabs_inv p Habs) as [q Hq]. rewrite Hq. discriminate. Qed.

Lemma path_lstrip : lstrip p = p.
Proof using Habs. destruct (isabs_inv p Habs) as [q Hq]. rewrite Hq. reflexivity. Qed.

Lemma strip_hash_line (pre body : string) :
  rstrip body = body -> body <> "" ->
  strip ((String "#" pre ++ body) ++ nl) = String "#" pre ++ body.
Proof using Type.
  intros Hb Hne. unfold strip.
  assert (E : lstrip ((String "#" pre ++ body) ++ nl) = (String "#" pre ++ body) ++ nl)
    by reflexivity.
  rewrite E. apply rstrip_keep_line.
  - now apply rstrip_fixed_app.
  - discriminate.
Qed.

Lemma scan_python_line st :
  test_db.scan_line st (("# Python: sqlite3.connect('" ++ p ++ "')") ++ nl) = st.
Proof using Type.
  unfold test_db.scan_line.
  rewrite (strip_hash_line " Python: sqlite3.connect('" (p ++ "')")).
  - reflexivity.
  - apply rstrip_fixed_app; [reflexivity | discriminate].
  - apply app_nonempty_r. discriminate.
Qed.

Lemma scan_connection_string_line st :
  test_db.scan_line st (("# Connection string: sqlite:///" ++ p) ++ nl)
  = (fst st, Some ("sqlite:///" ++ p)).
Proof using Habs Hr.
  unfold test_db.scan_line.
  rewrite (strip_hash_line " Connection string: sqlite:///" p Hr path_nonempty).
  simpl. f_equal. f_equal. unfold strip.
  change (rstrip ("sqlite:///" ++ p) = "sqlite:///" ++ p).
  apply rstrip_fixed_app; [exact Hr | exact path_nonempty].
Qed.

Lemma scan_file_path_line st :
  test_db.scan_line st (("# File path: " ++ p) ++ nl) = (Some p, snd st).
Proof using Habs Hr.
  unfold test_db.scan_line.
  rewrite (strip_hash_line " File path: " p Hr path_nonempty).
  simpl. f_equal. f_equal. unfold strip.
  change (rstrip (lstrip p) = p).
  now rewrite path_lstrip.
Qed.

End DescriptorLines.

Lemma descriptor_round_trip (e : environ) (p : string) :
  plain_path p ->
  test_db.parse_connection_file e (init_db.connection_file_content p) = Ok p.
Proof.
  intros (Habs & Hnorm & Hnl & Hr).
  unfold test_db.parse_connection_file, init_db.connection_file_content, file_lines.
  replace ("# SQLite connection methods:" ++ nl ++ "# Python: sqlite3.connect('" ++ p ++ "')"
           ++ nl ++ "# Connection string: " ++ ("sqlite:///" ++ p) ++ nl
           ++ "# File path: " ++ p ++ nl)
    with ("# SQLite connection methods:" ++ nl
          ++ ("# Python: sqlite3.connect('" ++ p ++ "')") ++ nl
          ++ ("# Connection string: sqlite:///" ++ p) ++ nl
          ++ ("# File path: " ++ p) ++ nl ++ "")
    by (rewrite !append_assoc; reflexivity).
  assert (Hpre : forall pre post, no_linebreak pre = true -> no_linebreak post = true ->
                            no_linebreak (pre ++ p ++ post) = true).
  { intros pre post H1 H2. unfold no_linebreak in *. now rewrite !all_chars_app, H1, Hnl, H2. }
  rewrite (lines_from_nl "# SQLite connection methods:") by reflexivity.
  rewrite (lines_from_nl ("# Python: sqlite3.connect('" ++ p ++ "')"))
    by (now apply Hpre).
  rewrite (lines_from_nl ("# Connection string: sqlite:///" ++ p))
    by (rewrite <- (append_nil_r p) at 1; apply Hpre; reflexivity).
  rewrite (lines_from_nl ("# File path: " ++ p))
    by (rewrite <- (append_nil_r p) at 1; apply Hpre; reflexivity).
  cbn [lines_from fold_left].
  change ("" ++ ?x) with x.
  change (test_db.scan_line (None, None) ("# SQLite connection methods:" ++ nl))
    with (@None string, @None string).
  rewrite scan_python_line, scan_connection_string_line, scan_file_path_line by assumption.
  assert (Hpe : String.eqb p "" = false).
  { apply String.eqb_neq. destruct (isabs_inv p Habs) as [q ->]. discriminate. }
  cbn [fst snd test_db.falsy]. rewrite Hpe. cbn [andb negb].
  now rewrite Hpe, abspath_absolute, Hnorm.
Qed.

(** C9, as stated, fails: a database path that ends in a space is written
    to db_connection.txt with its space and read back without it. *)
Lemma C9_trailing_space_is_lost :
  let e := {| BASE_DIR := "/srv/app"; SQLITE_DB := Some "/data/app.db "; cwd := "/srv/app" |} in
  let w := {| w_files := ∅; w_unwritable := ∅; w_now := "2026-01-01 00:00:00";
              w_launched := [] |} in
  let p := abspath (cwd e) (init_db.DB_PATH e) in
  p = "/data/app.db " /\ isabs p = true /\
  w_files (snd (init_db._write_connection_files e w)) !! test_db.CONNECTION_FILE e
  = Some (Text (init_db.connection_file_content p)) /\
  fst (test_db._get_db_path_from_connection_file e
         (snd (init_db._write_connection_files e w))) = Ok "/data/app.db" /\
  ~ (fst (test_db._get_db_path_from_connection_file e
            (snd (init_db._write_connection_files e w))) = Ok p).
Proof. vm_compute. repeat split; intros H; discriminate H. Qed.

(** C9, amended: for every database path that is absolute, normalised, on
    one line and without whitespace at its end, [_write_connection_files]
    writes a descriptor that ends with the lines
    [# Connection string: sqlite:///<path>] and [# File path: <path>], and
    [_get_db_path_from_connection_file] reads exactly that path back. *)
Theorem C9_descriptor_round_trip_for_plain_paths (e : environ) (w : world) :
  let p := abspath (cwd e) (init_db.DB_PATH e) in
  plain_path p ->
  test_db.CONNECTION_FILE e ∉ w_unwritable w ->
  exists w',
    init_db._write_connection_files e w = (Ok tt, w') /\
    w_files w' !! test_db.CONNECTION_FILE e
    = Some (Text (init_db.connection_file_content p)) /\
    (exists pre,
       init_db.connection_file_content p
       = pre ++ "# Connection string: sqlite:///" ++ p ++ nl ++ "# File path: " ++ p ++ nl) /\
    test_db._get_db_path_from_connection_file e w' = (Ok p, w').
Proof.
  intros p Hp Hw.
  assert (Hread : forall w1,
             w_files w1 !! test_db.CONNECTION_FILE e
             = Some (Text (init_db.connection_file_content p)) ->
             test_db._get_db_path_from_connection_file e w1 = (Ok p, w1)).
  { intros w1 H1. unfold test_db._get_db_path_from_connection_file, bind, path_exists,
      read_file, ret. rewrite H1.
    rewrite bool_decide_true by eauto. cbn [negb].
    rewrite bool_decide_true by eauto. cbn [negb].
    rewrite H1. now rewrite descriptor_round_trip. }
  assert (Hlines : exists pre,
             init_db.connection_file_content p
             = pre ++ "# Connection string: sqlite:///" ++ p ++ nl ++ "# File path: " ++ p ++ nl).
  { exists ("# SQLite connection methods:" ++ nl ++ "# Python: sqlite3.connect('" ++ p ++ "')" ++ nl).
    unfold init_db.connection_file_content. now rewrite !append_assoc. }
  unfold init_db._write_connection_files, bind, try_except, write_file.
  fold p. change (path_join (BASE_DIR e) "db_connection.txt") with (test_db.CONNECTION_FILE e).
  rewrite bool_decide_false by exact Hw.
  set (w1 := set_file (test_db.CONNECTION_FILE e) _ w).
  assert (H1 : w_files w1 !! test_db.CONNECTION_FILE e
               = Some (Text (init_db.connection_file_content p)))
    by apply lookup_insert_eq.
  destruct (bool_decide _).
  - exists w1. unfold ret. auto.
  - eexists. split; [reflexivity|].
    assert (H2 : w_files (set_file (path_join (path_join (BASE_DIR e) "db_visualizer") "sqlite.env")
                            (Text ("export SQLITE_DB=" ++ dquote ++ p ++ dquote ++ nl)) w1)
                 !! test_db.CONNECTION_FILE e
                 = Some (Text (init_db.connection_file_content p))).
    { cbn [set_file w_files]. rewrite lookup_insert_ne; [exact H1|].
      apply env_file_is_not_the_descriptor. }
    auto.
Qed.

Lemma C9_descriptor_round_trip_witness :
  exists w',
    init_db._write_connection_files
      {| BASE_DIR := "/srv/app"; SQLITE_DB := None; cwd := "/srv/app" |}
      {| w_files := ∅; w_unwritable := ∅; w_now := "2026-01-01 00:00:00"; w_launched := [] |}
    = (Ok tt, w') /\
    test_db._get_db_path_from_connection_file
      {| BASE_DIR := "/srv/app"; SQLITE_DB := None; cwd := "/srv/app" |} w'
    = (Ok "/srv/app/myapp.db", w').
Proof.
  destruct (C9_descriptor_round_trip_for_plain_paths
              {| BASE_DIR := "/srv/app"; SQLITE_DB := None; cwd := "/srv/app" |}
              {| w_files := ∅; w_unwritable := ∅; w_now := "2026-01-01 00:00:00";
                 w_launched := [] |})
    as (w' & H1 & _ & _ & H2).
  - repeat split; vm_compute; reflexivity.
  - cbn. apply not_elem_of_empty.
  - exists w'. split; [exact H1 | exact H2].
Defined.

(* ---------------------------------------------------------------------- *)
(** ** Running statements on a connection *)

Lemma bind_ok {S A B} (m : M S A) (k : A -> M S B) s a s' :
  m s = (Ok a, s') -> bind m k s = k a s'.
Proof. unfold bind. now intros ->. Qed.

Lemma bind_raise {S A B} (m : M S A) (k : A -> M S B) s x s' :
  m s = (Raise x, s') -> bind m k s = (Raise x, s').
Proof. unfold bind. now intros ->. Qed.


Lemma filter_none {A} (f : A -> bool) (l : list A) :
  (forall x, In x l -> f x = false) -> List.filter f l = [].
Proof.
  induction l as [|x l IH]; intros H; [reflexivity|]. simpl.
  rewrite (H x) by now left. apply IH. intros y Hy. apply H. now right.
Qed.

Lemma find_all_false {A} (f : A -> bool) (l : list A) :
  forallb (fun x => negb (f x)) l = true -> find f l = None.
Proof.
  induction l as [|x l IH]; [reflexivity|]. simpl. intros H.
  apply andb_prop in H as [Hx Hl]. destruct (f x); [discriminate | auto].
Qed.



Lemma after_statement_same c rows :
  after_statement c (current c) rows = set_rows c rows.
Proof. unfold after_statement, current, set_rows. now destruct (c_tx c). Qed.

Lemma execute_reads q c rows :
  reads q = true ->
  exec (c_foreign_keys c) (c_now c) q (current c) = Ok (current c, rows) ->
  execute q c = (Ok tt, set_rows c rows).
Proof.
  intros Hq He. destruct q; try discriminate Hq; unfold execute;
    assert (Hb : forall q', is_dml q' = false -> begin_if_dml q' c = c)
      by (intros q' Hq'; unfold begin_if_dml; rewrite Hq'; now destruct (c_tx c));
    rewrite Hb by reflexivity; rewrite He; now rewrite after_statement_same.
Qed.

Lemma execute_reads_raise q c x :
  reads q = true ->
  exec (c_foreign_keys c) (c_now c) q (current c) = Raise x ->
  execute q c = (Raise x, set_rows c []).
Proof.
  intros Hq He. destruct q; try discriminate Hq; unfold execute;
    assert (Hb : forall q', is_dml q' = false -> begin_if_dml q' c = c)
      by (intros q' Hq'; unfold begin_if_dml; rewrite Hq'; now destruct (c_tx c));
    rewrite Hb by reflexivity; rewrite He; now rewrite after_statement_same.
Qed.

Lemma selected_ok tbl cols conds d t :
  d_tables d !! tbl = Some t ->
  forallb (has_column (t_schema t)) (cols ++ map cond_column conds) = true ->
  selected tbl cols conds d
  = Ok (t_schema t, List.filter (matches (t_schema t) conds) (t_rows t)).
Proof.
  intros Ht Hc. unfold selected. rewrite Ht.
  rewrite find_all_false; [reflexivity|].
  rewrite <- Hc. clear Hc. induction (cols ++ map cond_column conds)%list as [|x l IH];
    [reflexivity|]. simpl. now rewrite negb_involutive, IH.
Qed.

(** SELECT COUNT( * ) FROM tbl WHERE conds, then [fetchone()[0]]. *)
Lemma count_then_fetch {A} tbl conds (k : value -> M connection A) c t :
  d_tables (current c) !! tbl = Some t ->
  forallb (has_column (t_schema t)) (map cond_column conds) = true ->
  bind (execute (SelectCount tbl conds)) (fun _ => bind fetchone_0 k) c
  = k (VInt (Z.of_nat (length (List.filter (matches (t_schema t) conds) (t_rows t)))))
      (set_rows c []).
Proof.
  intros Ht Hc.
  erewrite bind_ok; [|apply execute_reads; [reflexivity|]].
  2:{ cbn [exec]. rewrite (selected_ok tbl [] conds _ t Ht Hc). reflexivity. }
  reflexivity.
Qed.

Lemma count_missing_table {A} tbl conds (k : value -> M connection A) c :
  d_tables (current c) !! tbl = None ->
  bind (execute (SelectCount tbl conds)) (fun _ => bind fetchone_0 k) c
  = (Raise (OperationalError ("no such table: " ++ tbl)), set_rows c []).
Proof.
  intros Ht. erewrite bind_raise; [reflexivity|].
  apply execute_reads_raise; [reflexivity|].
  cbn [exec]. unfold selected. now rewrite Ht.
Qed.




Lemma fetchall_rows c rows : fetchall (set_rows c rows) = (Ok rows, set_rows c []).
Proof. reflexivity. Qed.



Lemma bind_eq_of {S A B} (m : M S A) (k : A -> M S B) s r :
  m s = r -> bind m k s = match r with
                          | (Ok a, s') => k a s'
                          | (Raise x, s') => (Raise x, s')
                          end.
Proof. unfold bind. now intros ->. Qed.

Lemma bind_ret {S A B} (a : A) (k : A -> M S B) s : bind (ret a) k s = k a s.
Proof. reflexivity. Qed.



(* ---------------------------------------------------------------------- *)
(** ** The seed-data assertion of the health check *)



(* ---------------------------------------------------------------------- *)
(** ** Rows and columns *)


Lemma alist_set_same {A} (k : string) (a : A) (l : list (string * A)) :
  assoc k l = Some a -> alist_set k a l = l.
Proof.
  induction l as [|[k0 a0] l IH]; simpl; [discriminate|].
  destruct (String.eqb_spec k0 k) as [->|]; intros H.
  - now injection H as ->.
  - now rewrite IH.
Qed.














(* ---------------------------------------------------------------------- *)
(** ** The additive migration *)

(** C4, as stated, fails: there are column definitions at which
    [_ensure_column] neither finds the column nor adds it.  On a users
    table that holds a row, a column that is missing and declared NOT NULL
    without a default is refused by ALTER TABLE; a column the table has
    under another case (Email for email) is not found by the comparison of
    Python and refused as a duplicate by SQLite; a name that is a reserved
    word is a syntax error.  The table is left as it was each time. *)
Lemma C4_some_definitions_are_refused :
  let c := connect (set_table "users" early_users empty_db) "2026-01-01 00:00:00" in
  has_column (t_schema early_users) "nickname" = false
  /\ init_db._ensure_column "users" "nickname TEXT NOT NULL" c
     = (Raise (OperationalError "Cannot add a NOT NULL column with default value NULL"), c)
  /\ has_column (t_schema early_users) "email" = false
  /\ init_db._ensure_column "users" "email TEXT" c
     = (Raise (OperationalError "duplicate column name: email"), c)
  /\ init_db._ensure_column "users" "order TEXT" c
     = (Raise (OperationalError ("near " ++ dquote ++ "order" ++ dquote ++ ": syntax error")), c).
Proof. vm_compute. repeat split. Qed.



(* ---------------------------------------------------------------------- *)
(** ** INSERT *)

















Lemma lookup_set_table name t d : d_tables (set_table name t d) !! name = Some t.
Proof. apply lookup_insert_eq. Qed.

Lemma lookup_set_table_ne name other t d :
  name <> other -> d_tables (set_table name t d) !! other = d_tables d !! other.
Proof. intros H. now apply lookup_insert_ne. Qed.




Lemma value_eqb_refl_text (s : string) : value_eqb (VText s) (VText s) = true.
Proof. apply String.eqb_refl. Qed.

(* ---------------------------------------------------------------------- *)
(** ** Rows under a key: replacing and ignoring *)

Section Keyed.

Context {K : Type}.
Variable hit : K -> row -> bool.
Hypothesis hit_functional :
  forall k k' r, hit k r = true -> hit k' r = true -> k = k'.




Lemma filter_hit_after_append k new rows :
  hit k new = false -> List.filter (hit k) (rows ++ [new]) = List.filter (hit k) rows.
Proof using Type.
  intros H. rewrite List.filter_app. cbn [List.filter]. rewrite H. apply app_nil_r.
Qed.

End Keyed.



(* ---------------------------------------------------------------------- *)
(** ** app_info: one row per key, written anew by every run *)









(* ---------------------------------------------------------------------- *)
(** ** Properties every step of a program keeps *)

Section Keeps.

Variable I : connection -> Prop.
Hypothesis I_stores : of_stores I.

Lemma keeps_ret {A} (a : A) : keeps I (ret a).
Proof using Type. intros c H. exact H. Qed.

Lemma keeps_raise {A} (x : exn) : keeps I (@raise connection A x).
Proof using Type. intros c H. exact H. Qed.

Lemma keeps_bind {A B} (m : M connection A) (k : A -> M connection B) :
  keeps I m -> (forall a, keeps I (k a)) -> keeps I (bind m k).
Proof using Type.
  intros Hm Hk c H. unfold bind. specialize (Hm c H).
  destruct (m c) as [[a|x] c1]; cbn [snd] in *; [now apply Hk | exact Hm].
Qed.

Lemma keeps_for_each {A} (l : list A) (body : A -> M connection unit) :
  (forall x, keeps I (body x)) -> keeps I (for_each l body).
Proof using Type.
  intros Hb. induction l as [|x l IH]; cbn [for_each].
  - apply keeps_ret.
  - apply keeps_bind; [apply Hb | intros _; exact IH].
Qed.

Lemma keeps_index {A} (l : list A) (i : nat) : keeps I (index l i).
Proof using Type. unfold index. destruct (nth_error l i); [apply keeps_ret | apply keeps_raise]. Qed.

Lemma keeps_list_comp {A B} (l : list A) (f : A -> M connection B) :
  (forall x, keeps I (f x)) -> keeps I (list_comp l f).
Proof using Type.
  intros Hf. induction l as [|x l IH]; cbn [list_comp].
  - apply keeps_ret.
  - apply keeps_bind; [apply Hf|]. intros y. apply keeps_bind; [exact IH|].
    intros ys. apply keeps_ret.
Qed.

Lemma keeps_int_of_value (v : value) : keeps I (int_of_value v).
Proof using Type.
  destruct v as [|n|s]; cbn [int_of_value];
    [apply keeps_raise | apply keeps_ret |].
  destruct (NilZero.int_of_string s); [apply keeps_ret | apply keeps_raise].
Qed.

Lemma keeps_dict_of_rows (rows : list (list value)) (acc : gmap value value) :
  keeps I (init_db.dict_of_rows rows acc).
Proof using Type.
  revert acc. induction rows as [|r rows IH]; intros acc; cbn [init_db.dict_of_rows].
  - apply keeps_ret.
  - destruct r as [|v [|k [|? ?]]]; try apply keeps_raise. apply IH.
Qed.

Lemma keeps_fetchone : keeps I fetchone.
Proof using I_stores.
  intros c H. unfold fetchone. destruct (c_rows c); [exact H|].
  cbn [snd]. revert H. now apply I_stores.
Qed.

Lemma keeps_fetchall : keeps I fetchall.
Proof using I_stores. intros c H. cbn. revert H. now apply I_stores. Qed.

Lemma keeps_fetchone_0 : keeps I fetchone_0.
Proof using I_stores.
  unfold fetchone_0. apply keeps_bind; [apply keeps_fetchone|].
  intros [r|]; [apply keeps_index | apply keeps_raise].
Qed.

Lemma keeps_try_finally {A} (body : M connection A) (fin : M connection unit) :
  keeps I body -> keeps I fin -> keeps I (try_finally body fin).
Proof using Type.
  intros Hb Hf c H. unfold try_finally. specialize (Hb c H).
  destruct (body c) as [r c1]. cbn [snd] in Hb. specialize (Hf c1 Hb).
  now destruct (fin c1) as [[u|x] c2].
Qed.

End Keeps.


(** The durable store is out of reach of INSERT, UPDATE and queries. *)
Lemma keeps_disk_execute (d0 : db) (q : sql) :
  (is_dml q || reads q)%bool = true ->
  keeps (fun c => c_disk c = d0) (execute q).
Proof.
  intros Hq [disk tx fk now rows] Hd. cbn in Hd. subst disk.
  destruct q; try discriminate Hq; unfold execute, begin_if_dml, after_statement, current;
    cbn [is_dml c_tx c_disk c_foreign_keys c_now c_rows];
    destruct tx as [w|]; cbn [c_tx c_disk c_foreign_keys c_now c_rows];
    match goal with
    | |- context [exec ?f ?n ?q' ?dd] =>
        destruct (exec f n q' dd) as [[d' rows']|x] eqn:E; cbn; try reflexivity
    end.
  all: cbn [exec] in E;
    repeat match type of E with
           | match ?t with _ => _ end = _ => destruct t eqn:?; try discriminate E
           end;
    now injection E as <- _.
Qed.


Lemma stores_disk (d0 : db) : of_stores (fun c => c_disk c = d0).
Proof. intros c c' Hd Ht. now rewrite Hd. Qed.

(* ---------------------------------------------------------------------- *)
(** ** What a statement leaves alone *)

Lemma exec_insert_shape fk now pol tbl cols vals d d' :
  exec_insert fk now pol tbl cols vals d = Ok d' ->
  exists t rows seq,
    d_tables d !! tbl = Some t /\ d' = set_table tbl (with_rows t rows seq) d.
Proof.
  unfold exec_insert. destruct (d_tables d !! tbl) as [t|]; [|discriminate].
  intros H.
  repeat match type of H with
         | (if ?b then _ else _) = _ => destruct b
         | match ?x with _ => _ end = _ => destruct x
         | (let _ := _ in _) = _ => cbv zeta in H
         end; try discriminate H; injection H as <-; eauto.
Qed.

Lemma exec_update_shape fk tbl sets conds d d' :
  exec_update fk tbl sets conds d = Ok d' ->
  exists t rows seq,
    d_tables d !! tbl = Some t /\ d' = set_table tbl (with_rows t rows seq) d.
Proof.
  unfold exec_update. destruct (d_tables d !! tbl) as [t|]; [|discriminate].
  intros H.
  repeat match type of H with
         | (if ?b then _ else _) = _ => destruct b
         | match ?x with _ => _ end = _ => destruct x
         | (let _ := _ in _) = _ => cbv zeta in H
         end; try discriminate H; injection H as <-; eauto.
Qed.

Lemma exec_alter_shape tbl column_def d d' :
  exec_alter_add_column tbl column_def d = Ok d' ->
  exists t cd, d_tables d !! tbl = Some t /\ d' = set_table tbl (add_column cd t) d.
Proof.
  unfold exec_alter_add_column. destruct (_ || _)%bool; [discriminate|].
  destruct (d_tables d !! tbl) as [t|]; [|discriminate].
  destruct (parse_column_def column_def) as [cd| |]; try discriminate.
  destruct (has_column_nocase _ _); [discriminate|].
  destruct (_ && _)%bool; [discriminate|].
  intros H. injection H as <-. eauto.
Qed.

Lemma exec_frame fk now q d d' rows name :
  exec fk now q d = Ok (d', rows) ->
  writes q <> Some name ->
  d_tables d' !! name = d_tables d !! name.
Proof.
  intros H Hw. destruct q; cbn [exec writes] in *.
  - now injection H as <- _.
  - unfold exec_create_table in H. destruct (d_tables d !! name0).
    + now injection H as <- _.
    + injection H as <- _. apply lookup_set_table_ne. congruence.
  - unfold exec_create_index in H.
    destruct (d_tables d !! tbl); [|discriminate].
    destruct (d_indexes d !! idx); [now injection H as <- _|].
    destruct (has_column _ _); [|discriminate]. now injection H as <- _.
  - destruct (negb (is_table_name tbl)); [discriminate|].
    destruct (d_tables d !! tbl); now injection H as <- _.
  - destruct (exec_alter_add_column tbl column_def d) as [d1|] eqn:E; [|discriminate].
    injection H as <- _. apply exec_alter_shape in E as (t & cd & _ & ->).
    apply lookup_set_table_ne. congruence.
  - destruct (exec_insert fk now pol tbl cols vals d) as [d1|] eqn:E; [|discriminate].
    injection H as <- _. apply exec_insert_shape in E as (t & r & s & _ & ->).
    apply lookup_set_table_ne. congruence.
  - destruct (exec_update fk tbl sets where_ d) as [d1|] eqn:E; [|discriminate].
    injection H as <- _. apply exec_update_shape in E as (t & r & s & _ & ->).
    apply lookup_set_table_ne. congruence.
  - destruct (selected tbl cols where_ d) as [[? ?]|]; [|discriminate].
    now injection H as <- _.
  - destruct (selected tbl [] where_ d) as [[? ?]|]; [|discriminate].
    now injection H as <- _.
  - now injection H as <- _.
  - now injection H as <- _.
  - now injection H as <- _.
Qed.

(** No statement drops a table. *)
Lemma exec_tables_stay fk now q d d' rows name :
  exec fk now q d = Ok (d', rows) ->
  is_Some (d_tables d !! name) -> is_Some (d_tables d' !! name).
Proof.
  intros H Hn. destruct (decide (writes q = Some name)) as [Hw|Hw].
  - destruct q; try discriminate Hw; injection Hw as ->; cbn [exec] in H.
    + unfold exec_create_table in H. destruct (d_tables d !! name) eqn:E.
      * injection H as <- _. now rewrite E.
      * now destruct Hn.
    + destruct (exec_alter_add_column name column_def d) as [d1|] eqn:E; [|discriminate].
      injection H as <- _. apply exec_alter_shape in E as (t & cd & _ & ->).
      rewrite lookup_set_table. eauto.
    + destruct (exec_insert fk now pol name cols vals d) as [d1|] eqn:E; [|discriminate].
      injection H as <- _. apply exec_insert_shape in E as (t & r & s & _ & ->).
      rewrite lookup_set_table. eauto.
    + destruct (exec_update fk name sets where_ d) as [d1|] eqn:E; [|discriminate].
      injection H as <- _. apply exec_update_shape in E as (t & r & s & _ & ->).
      rewrite lookup_set_table. eauto.
  - now rewrite (exec_frame _ _ _ _ _ _ _ H Hw).
Qed.



(** Walks through a program of [init_db] or [test_db]; [on_execute] is
    run on the goals [keeps I (execute q)], [on_fetch] proves [of_stores I]. *)
Ltac keeps_walk on_execute on_fetch :=
  repeat
    (intros;
     lazymatch goal with
     | |- keeps _ (bind _ _) => apply keeps_bind
     | |- keeps _ (ret _) => apply keeps_ret
     | |- keeps _ (raise _) => apply keeps_raise
     | |- keeps _ (for_each _ _) => apply keeps_for_each
     | |- keeps _ (index _ _) => apply keeps_index
     | |- keeps _ (int_of_value _) => apply keeps_int_of_value
     | |- keeps _ (list_comp _ _) => apply keeps_list_comp
     | |- keeps _ (init_db.dict_of_rows _ _) => apply keeps_dict_of_rows
     | |- keeps _ fetchone => apply keeps_fetchone; on_fetch
     | |- keeps _ fetchall => apply keeps_fetchall; on_fetch
     | |- keeps _ fetchone_0 => apply keeps_fetchone_0; on_fetch
     | |- keeps _ (try_finally _ _) => apply keeps_try_finally
     | |- keeps _ (execute _) => on_execute
     | |- keeps _ (match ?x with _ => _ end) => destruct x
     | |- keeps _ init_db._create_schema => unfold init_db._create_schema
     | |- keeps _ (init_db._ensure_column _ _) => unfold init_db._ensure_column
     | |- keeps _ init_db._seed_app_info => unfold init_db._seed_app_info
     | |- keeps _ init_db._seed_demo_user => unfold init_db._seed_demo_user
     | |- keeps _ init_db._seed_categories => unfold init_db._seed_categories
     | |- keeps _ (init_db._seed_videos _) => unfold init_db._seed_videos
     | |- keeps _ (init_db.seed_video _ _) => unfold init_db.seed_video
     | |- keeps _ (init_db._seed_watch_history _ _) => unfold init_db._seed_watch_history
     end).

(* ---------------------------------------------------------------------- *)
(** ** watch_history: one row per user and video *)















(* ---------------------------------------------------------------------- *)
(** ** users: the demo user *)









Lemma refreshed_id (r : row) : r_id (refreshed r) = r_id r.
Proof. reflexivity. Qed.















Lemma refreshed_demo_user_row id now : refreshed (demo_user_row id now) = demo_user_row id now.
Proof. reflexivity. Qed.








(* ---------------------------------------------------------------------- *)
(** ** The unit of work of a run *)

Lemma returns_bind_l {A B} (Q : connection -> Prop) (m : M connection A)
    (k : A -> M connection B) :
  returns Q m -> (forall a, keeps Q (k a)) -> returns Q (bind m k).
Proof.
  intros Hm Hk c b c' H. unfold bind in H.
  destruct (m c) as [[a|x] c1] eqn:E; [|discriminate H].
  specialize (Hk a c1 (Hm _ _ _ E)). now rewrite H in Hk.
Qed.

Lemma returns_bind_r {A B} (Q : connection -> Prop) (m : M connection A)
    (k : A -> M connection B) :
  (forall a, returns Q (k a)) -> returns Q (bind m k).
Proof.
  intros Hk c b c' H. unfold bind in H.
  destruct (m c) as [[a|x] c1] eqn:E; [|discriminate H]. exact (Hk a _ _ _ H).
Qed.

(** A property of the store a connection sees that a statement keeps on
    stores is kept by its execution. *)
Lemma keeps_current_execute (inv : db -> Prop) (q : sql) :
  (forall fk now d d' rows, inv d -> exec fk now q d = Ok (d', rows) -> inv d') ->
  keeps (fun c => inv (current c)) (execute q).
Proof.
  intros Hq [disk tx fk now rows] Hc. unfold current in Hc. cbn in Hc.
  destruct q; unfold execute; cbn [c_tx c_disk c_foreign_keys c_now c_rows];
    try (destruct tx; cbn; assumption).
  all: unfold begin_if_dml, after_statement, current;
    cbn [is_dml c_tx c_disk c_foreign_keys c_now c_rows];
    destruct tx as [w|]; cbn [c_tx c_disk c_foreign_keys c_now c_rows];
    match goal with
    | |- context [exec ?f ?n ?q' ?d0] =>
        destruct (exec f n q' d0) as [[d' rows']|x] eqn:E; cbn; eauto
    end.
Qed.

Lemma stores_current (inv : db -> Prop) : of_stores (fun c => inv (current c)).
Proof. intros c c' Hd Ht. unfold current. now rewrite Hd, Ht. Qed.

Lemma keeps_has_table (name : string) (q : sql) : keeps (has_table name) (execute q).
Proof.
  apply (keeps_current_execute (fun d => is_Some (d_tables d !! name))).
  intros fk now d d' rows H E. exact (exec_tables_stay _ _ _ _ _ _ _ E H).
Qed.

Lemma stores_has_table (name : string) : of_stores (has_table name).
Proof. apply (stores_current (fun d => is_Some (d_tables d !! name))). Qed.

Lemma returns_create_table (name : string) (sch : schema) :
  returns (has_table name) (execute (CreateTableIfNotExists name sch)).
Proof.
  intros [disk tx fk now rows] a c' H. unfold execute, begin_if_dml, after_statement in H.
  cbn [is_dml exec c_tx c_disk c_foreign_keys c_now c_rows] in H.
  unfold has_table. unfold exec_create_table in H.
  destruct tx as [w|]; unfold current in *; cbn [c_tx c_disk] in H.
  - destruct (d_tables w !! name) eqn:E; injection H as H; subst c'; cbn [c_tx];
      [rewrite E | rewrite lookup_set_table]; eauto.
  - destruct (d_tables disk !! name) eqn:E; injection H as H; subst c'; cbn [c_tx c_disk];
      [rewrite E | rewrite lookup_set_table]; eauto.
Qed.

(** Every statement but INSERT and UPDATE leaves the connection in
    autocommit mode when it finds it there. *)
Lemma keeps_autocommit (q : sql) : is_dml q = false -> keeps autocommit (execute q).
Proof.
  intros Hq [disk tx fk now rows] Hc. unfold autocommit in *. cbn in Hc. subst tx.
  destruct q; try discriminate Hq; unfold execute, begin_if_dml, after_statement;
    cbn [is_dml c_tx c_disk c_foreign_keys c_now c_rows]; try reflexivity;
    match goal with
    | |- context [exec ?f ?n ?q' ?d0] => now destruct (exec f n q' d0) as [[d' rows']|x]
    end.
Qed.

Lemma stores_autocommit : of_stores autocommit.
Proof. intros c c' Hd Ht. unfold autocommit. now rewrite Ht. Qed.

Lemma create_schema_keeps_autocommit : keeps autocommit init_db._create_schema.
Proof.
  keeps_walk ltac:(apply keeps_autocommit; reflexivity) ltac:(apply stores_autocommit).
Qed.

Ltac keeps_has_table_walk :=
  keeps_walk ltac:(apply keeps_has_table) ltac:(apply stores_has_table).

Ltac find_create_table :=
  first [ apply returns_bind_l; [apply returns_create_table | keeps_has_table_walk]
        | apply returns_bind_r; intros; find_create_table ].

(** When [_create_schema] returns, its six tables are there. *)
Lemma create_schema_returns_tables (name : string) :
  In name declared_tables -> returns (has_table name) init_db._create_schema.
Proof.
  intros H. unfold init_db._create_schema.
  repeat (destruct H as [<-|H]; [find_create_table|]). destruct H.
Qed.

Lemma seeds_keep_disk (d0 : db) :
  keeps (fun c => c_disk c = d0) init_db._seed_app_info
  /\ keeps (fun c => c_disk c = d0) init_db._seed_demo_user
  /\ keeps (fun c => c_disk c = d0) init_db._seed_categories
  /\ (forall ids, keeps (fun c => c_disk c = d0) (init_db._seed_videos ids))
  /\ (forall id ids, keeps (fun c => c_disk c = d0) (init_db._seed_watch_history id ids)).
Proof.
  repeat split;
    keeps_walk ltac:(apply keeps_disk_execute; reflexivity) ltac:(apply stores_disk).
Qed.

Lemma seeds_keep_tables (name : string) :
  keeps (has_table name) init_db._seed_app_info
  /\ keeps (has_table name) init_db._seed_demo_user
  /\ keeps (has_table name) init_db._seed_categories
  /\ (forall ids, keeps (has_table name) (init_db._seed_videos ids))
  /\ (forall id ids, keeps (has_table name) (init_db._seed_watch_history id ids)).
Proof. repeat split; keeps_has_table_walk. Qed.

Lemma table_count_then_fetch {A} (k : value -> M connection A) c :
  bind (execute SelectTableCount) (fun _ => bind fetchone_0 k) c
  = k (VInt (Z.of_nat (length (table_names (current c))))) (set_rows c []).
Proof. erewrite bind_ok; [|apply execute_reads; reflexivity]. reflexivity. Qed.

(** With the four counted tables in the store, the statistics are read
    without an error, and nothing but the cursor changes. *)
Lemma statistics_run (c : connection) :
  has_table "users" c -> has_table "categories" c -> has_table "videos" c ->
  has_table "watch_history" c ->
  exists stats, statistics c = (Ok stats, set_rows c []).
Proof.
  intros [tu Hu] [tc Hc] [tv Hv] [tw Hw]. unfold statistics.
  rewrite table_count_then_fetch.
  rewrite (count_then_fetch "users" [] _ _ tu) by (exact Hu || reflexivity).
  rewrite (count_then_fetch "categories" [] _ _ tc) by (exact Hc || reflexivity).
  rewrite (count_then_fetch "videos" [] _ _ tv) by (exact Hv || reflexivity).
  rewrite (count_then_fetch "watch_history" [] _ _ tw) by (exact Hw || reflexivity).
  eexists. reflexivity.
Qed.

Lemma seeds_keep_counted_tables (d0 : db) :
  keeps (counted_tables_over d0) init_db._seed_app_info
  /\ keeps (counted_tables_over d0) init_db._seed_demo_user
  /\ keeps (counted_tables_over d0) init_db._seed_categories
  /\ (forall ids, keeps (counted_tables_over d0) (init_db._seed_videos ids))
  /\ (forall id ids, keeps (counted_tables_over d0) (init_db._seed_watch_history id ids)).
Proof.
  destruct (seeds_keep_disk d0) as (D1 & D2 & D3 & D4 & D5).
  destruct (seeds_keep_tables "users") as (U1 & U2 & U3 & U4 & U5).
  destruct (seeds_keep_tables "categories") as (C1 & C2 & C3 & C4 & C5).
  destruct (seeds_keep_tables "videos") as (V1 & V2 & V3 & V4 & V5).
  destruct (seeds_keep_tables "watch_history") as (W1 & W2 & W3 & W4 & W5).
  assert (K : forall A (m : M connection A),
             keeps (fun c => c_disk c = d0) m -> keeps (has_table "users") m ->
             keeps (has_table "categories") m -> keeps (has_table "videos") m ->
             keeps (has_table "watch_history") m -> keeps (counted_tables_over d0) m).
  { intros A m HD HU HC HV HW c (Hd & Hu & Hc & Hv & Hw).
    repeat split; [now apply HD | now apply HU | now apply HC | now apply HV | now apply HW]. }
  repeat split; intros; apply K; auto.
Qed.

(** C3, amended: the steps of a run execute in the order schema, app_info,
    user, categories, videos, watch_history, and the first one that raises
    ends the run with its exception.  The schema step leaves the connection
    in autocommit mode: what its DDL statements did is durable when they
    return.  The seeding steps write in one transaction, committed once
    after the last of them: when any step raises, the durable store is the
    one the schema step left, with no seeded row in it; when none raises,
    the durable store is the store the last step saw, and the statistics
    read after the commit do not fail. *)
Theorem C3_seeded_rows_are_committed_once_or_not_at_all (now : string) (d : db) :
  let failed (x : exn) (cs : connection) := init_db.run now d = (Raise x, c_disk cs) in
  match (execute PragmaForeignKeysOn ;; init_db._create_schema) (connect d now) with
  | (Raise x, cs) => failed x cs
  | (Ok _, cs) =>
      autocommit cs /\
      match init_db._seed_app_info cs with
      | (Raise x, _) => failed x cs
      | (Ok _, c1) =>
          match init_db._seed_demo_user c1 with
          | (Raise x, _) => failed x cs
          | (Ok demo_user_id, c2) =>
              match init_db._seed_categories c2 with
              | (Raise x, _) => failed x cs
              | (Ok category_ids, c3) =>
                  match init_db._seed_videos category_ids c3 with
                  | (Raise x, _) => failed x cs
                  | (Ok video_ids, c4) =>
                      match init_db._seed_watch_history demo_user_id video_ids c4 with
                      | (Raise x, _) => failed x cs
                      | (Ok _, c5) =>
                          c_disk c5 = c_disk cs
                          /\ exists stats, init_db.run now d = (Ok stats, current c5)
                      end
                  end
              end
          end
      end
  end.
Proof.
  cbv zeta. unfold init_db.run, init_db.on_connection, try_finally, init_db.seed_and_commit.
  set (c0 := connect d now).
  set (cp := snd (execute PragmaForeignKeysOn c0)).
  rewrite !(bind_ok (execute PragmaForeignKeysOn) _ c0 tt cp eq_refl).
  pose proof (create_schema_keeps_autocommit cp eq_refl) as Hauto.
  pose proof (fun name H => create_schema_returns_tables name H cp) as Htables.
  destruct (init_db._create_schema cp) as [[[]|x] cs] eqn:Hcs;
    rewrite (bind_eq_of _ _ _ _ Hcs); [|reflexivity].
  cbn [snd] in Hauto. split; [exact Hauto|].
  assert (H0 : counted_tables_over (c_disk cs) cs).
  { split; [reflexivity|].
    repeat split; (eapply Htables; [|reflexivity]); cbn; tauto. }
  clear Htables.
  destruct (seeds_keep_counted_tables (c_disk cs)) as (K1 & K2 & K3 & K4 & K5).
  specialize (K1 cs H0).
  destruct (init_db._seed_app_info cs) as [[[]|x] c1] eqn:H1;
    rewrite (bind_eq_of _ _ _ _ H1); cbn [snd] in K1;
    [|cbn; f_equal; apply K1].
  specialize (K2 c1 K1).
  destruct (init_db._seed_demo_user c1) as [[demo_user_id|x] c2] eqn:H2;
    rewrite (bind_eq_of _ _ _ _ H2); cbn [snd] in K2;
    [|cbn; f_equal; apply K2].
  specialize (K3 c2 K2).
  destruct (init_db._seed_categories c2) as [[category_ids|x] c3] eqn:H3;
    rewrite (bind_eq_of _ _ _ _ H3); cbn [snd] in K3;
    [|cbn; f_equal; apply K3].
  specialize (K4 category_ids c3 K3).
  destruct (init_db._seed_videos category_ids c3) as [[video_ids|x] c4] eqn:H4;
    rewrite (bind_eq_of _ _ _ _ H4); cbn [snd] in K4;
    [|cbn; f_equal; apply K4].
  specialize (K5 demo_user_id video_ids c4 K4).
  destruct (init_db._seed_watch_history demo_user_id video_ids c4) as [[[]|x] c5] eqn:H5;
    rewrite (bind_eq_of _ _ _ _ H5); cbn [snd] in K5;
    [|cbn; f_equal; apply K5].
  destruct K5 as (Hd & Hu & Hc & Hv & Hw). split; [exact Hd|].
  rewrite (bind_ok commit _ c5 tt (snd (commit c5)) eq_refl).
  destruct (statistics_run (snd (commit c5))) as [stats Hstats]; try assumption.
  exists stats. unfold statistics in Hstats. rewrite Hstats. reflexivity.
Qed.

(** C3, as stated, fails: a run on a store that holds only a users table,
    with the email of the demo user held by somebody else, raises in the
    user step, and the five tables the schema step created before it are
    durable all the same. *)
Lemma C3_created_tables_survive_a_failed_run :
  let d := users_only email_taken in
  let r := init_db.run "2026-01-01 00:00:00" d in
  fst r = Raise (RuntimeError "Failed to seed demo user.")
  /\ table_names d = ["users"]
  /\ (forall name, In name declared_tables -> is_Some (d_tables (snd r) !! name))
  /\ snd r <> d.
Proof.
  cbv zeta. split; [vm_compute; reflexivity|]. split; [vm_compute; reflexivity|]. split.
  - intros name H. repeat (destruct H as [<-|H]; [vm_compute; eauto|]). destruct H.
  - intros H. apply (f_equal (fun d => length (table_names d))) in H.
    vm_compute in H. discriminate H.
Qed.

(* ---------------------------------------------------------------------- *)
(** ** The health check and its remediation *)

Lemma grows_refl (w : world) : grows w w.
Proof. now split. Qed.

Lemma grows_trans (w1 w2 w3 : world) : grows w1 w2 -> grows w2 w3 -> grows w1 w3.
Proof. intros [L1 F1] [L2 F2]. split; [congruence | auto]. Qed.

Lemma grows_set_file (path : string) (f : file) (w : world) : grows w (set_file path f w).
Proof.
  split; [reflexivity|]. intros p Hp. unfold exists_in, set_file. cbn [w_files].
  destruct (decide (path = p)) as [->|Hne];
    [rewrite lookup_insert_eq; eauto | now rewrite lookup_insert_ne].
Qed.

Lemma with_connection_grows {A} (path : string) (work : M connection A) (w : world) :
  grows w (snd (with_connection path work w)).
Proof.
  unfold with_connection. destruct (bool_decide _); [apply grows_refl|].
  destruct (w_files w !! path) as [[content|d]|]; cbn beta iota zeta.
  - destruct (String.eqb content ""); [|apply grows_refl].
    destruct (work _) as [r c]. apply grows_set_file.
  - destruct (work _) as [r c]. apply grows_set_file.
  - destruct (work _) as [r c]. apply grows_set_file.
Qed.

Lemma write_file_grows (path content : string) (w : world) :
  grows w (snd (write_file path content w)).
Proof.
  unfold write_file. destruct (bool_decide _); [apply grows_refl | apply grows_set_file].
Qed.

Lemma best_effort_write_grows (path content : string) (w : world) :
  exists w', try_except (write_file path content) init_db.any_exception (fun _ => ret tt) w
             = (Ok tt, w') /\ grows w w'.
Proof.
  unfold try_except. pose proof (write_file_grows path content w) as H.
  destruct (write_file path content w) as [[[]|x] w']; cbn [snd] in H; eauto.
Qed.

Lemma write_connection_files_grows (e : environ) (w : world) :
  exists w', init_db._write_connection_files e w = (Ok tt, w') /\ grows w w'.
Proof.
  unfold init_db._write_connection_files. cbv zeta.
  destruct (best_effort_write_grows (path_join (BASE_DIR e) "db_connection.txt")
              (init_db.connection_file_content (abspath (cwd e) (init_db.DB_PATH e))) w)
    as (w1 & E1 & G1).
  rewrite (bind_ok _ _ _ _ _ E1).
  destruct (best_effort_write_grows
              (path_join (path_join (BASE_DIR e) "db_visualizer") "sqlite.env")
              ("export SQLITE_DB=" ++ dquote ++ abspath (cwd e) (init_db.DB_PATH e)
               ++ dquote ++ nl) w1) as (w2 & E2 & G2).
  exists w2. split; [exact E2 | eapply grows_trans; eauto].
Qed.

(** A run of init_db.py ends with an exit status, removes no file and
    launches nothing. *)
Lemma script_grows (e : environ) (w : world) :
  exists code w', init_db.script e w = (Ok code, w') /\ grows w w'.
Proof.
  unfold init_db.script, init_db.initialize_database.
  pose proof (with_connection_grows (init_db.DB_PATH e) init_db.on_connection w) as G.
  unfold bind. destruct (with_connection _ _ w) as [[stats|x] w1]; cbn [snd] in G.
  - destruct (write_connection_files_grows e w1) as (w2 & E2 & G2). rewrite E2.
    exists 0, w2. split; [reflexivity | eapply grows_trans; eauto].
  - exists 1, w1. now split.
Qed.

Lemma launches_none (e : environ) (w : world) : launches e 0 w w.
Proof. unfold launches. cbn [repeat]. now rewrite app_nil_r. Qed.

Lemma launches_trans (e : environ) (n m : nat) (w1 w2 w3 : world) :
  launches e n w1 w2 -> launches e m w2 w3 -> launches e (n + m) w1 w3.
Proof.
  unfold launches. intros H1 H2. now rewrite H2, H1, <- app_assoc, repeat_app.
Qed.

Lemma launches_grows (e : environ) (w w' : world) : grows w w' -> launches e 0 w w'.
Proof. intros [H _]. unfold launches. cbn [repeat]. now rewrite app_nil_r. Qed.

(** [_run_init_db] launches init_db.py once when the script is there, and
    raises [FileNotFoundError] without a launch when it is not; it removes
    no file, and what it raises makes [main] exit with 1. *)
Lemma run_init_db_spec (e : environ) (w : world) :
  exists r w',
    test_db._run_init_db e w = (r, w')
    /\ (forall p, exists_in w p -> exists_in w' p)
    /\ launches e (one_launch e w) w w'
    /\ gives_up r.
Proof.
  unfold test_db._run_init_db, one_launch, path_exists, bind.
  fold (exists_in w (test_db.INIT_SCRIPT e)).
  destruct (bool_decide (exists_in w (test_db.INIT_SCRIPT e))); cbn [negb].
  - unfold test_db.subprocess_run_init, bind, modify.
    match goal with
    | |- context [init_db.script ?e' ?w0] =>
        destruct (script_grows e' w0) as (code & w1 & E & [GL GF]); rewrite E
    end.
    cbn [w_launched w_files] in GL.
    assert (Hf : forall p, exists_in w p -> exists_in w1 p) by (intros p Hp; apply GF, Hp).
    destruct (negb (code =? 0)); eexists _, w1; (split; [reflexivity|]);
      (split; [exact Hf|]); (split; [exact GL|]); exact I || reflexivity.
  - eexists _, w. split; [reflexivity|]. split; [auto|]. split; [apply launches_none|].
    reflexivity.
Qed.

(** With the descriptor in place, resolving the path changes nothing. *)
Lemma resolve_with_descriptor (e : environ) (w : world) :
  exists_in w (test_db.CONNECTION_FILE e) ->
  exists r,
    test_db._get_db_path_from_connection_file e w = (r, w)
    /\ (forall x, r = Raise x -> exists_in w (test_db.CONNECTION_FILE e)).
Proof.
  intros H. unfold test_db._get_db_path_from_connection_file, path_exists, bind.
  fold (exists_in w (test_db.CONNECTION_FILE e)).
  rewrite (bool_decide_eq_true_2 _ H). cbn [negb ret].
  fold (exists_in w (test_db.CONNECTION_FILE e)).
  rewrite (bool_decide_eq_true_2 _ H). cbn [negb].
  unfold read_file. pose proof H as [f Hf]. rewrite Hf.
  destruct f as [content|d]; [|eauto].
  destruct (test_db.parse_connection_file e content); eauto.
Qed.

(** Resolving the path launches init_db.py only for a missing descriptor,
    and then once; it gives up when the descriptor is still missing. *)
Lemma resolve_spec (e : environ) (w : world) :
  exists r w1,
    test_db._get_db_path_from_connection_file e w = (r, w1)
    /\ (forall p, exists_in w p -> exists_in w1 p)
    /\ launches e (if bool_decide (exists_in w (test_db.CONNECTION_FILE e))
                   then 0%nat else one_launch e w) w w1
    /\ (forall p, r = Ok p -> exists_in w1 (test_db.CONNECTION_FILE e))
    /\ (~ exists_in w1 (test_db.CONNECTION_FILE e) ->
        exists x, r = Raise x /\ test_db.caught_by_main x = true).
Proof.
  destruct (decide (exists_in w (test_db.CONNECTION_FILE e))) as [H|H].
  - destruct (resolve_with_descriptor e w H) as (r & E & _). exists r, w.
    rewrite (bool_decide_eq_true_2 _ H).
    split; [exact E|]. split; [auto|]. split; [apply launches_none|].
    split; [auto | contradiction].
  - rewrite (bool_decide_eq_false_2 _ H).
    destruct (run_init_db_spec e w) as (r0 & w1 & E0 & F0 & L0 & G0).
    unfold test_db._get_db_path_from_connection_file, path_exists.
    unfold bind at 1. fold (exists_in w (test_db.CONNECTION_FILE e)).
    rewrite (bool_decide_eq_false_2 _ H). cbn [negb]. unfold bind at 1. rewrite E0.
    destruct r0 as [[]|x].
    + unfold bind at 1. fold (exists_in w1 (test_db.CONNECTION_FILE e)).
      destruct (decide (exists_in w1 (test_db.CONNECTION_FILE e))) as [H1|H1].
      * rewrite (bool_decide_eq_true_2 _ H1). cbn [negb].
        unfold bind, read_file. destruct H1 as [f Hf]. rewrite Hf.
        assert (H1 : exists_in w1 (test_db.CONNECTION_FILE e)) by (now exists f).
        destruct f as [content|d];
          [destruct (test_db.parse_connection_file e content)|];
          eexists _, w1; (split; [reflexivity|]); (split; [exact F0|]);
          (split; [exact L0|]); (split; [auto | contradiction]).
      * rewrite (bool_decide_eq_false_2 _ H1). cbn [negb].
        eexists _, w1. split; [reflexivity|]. split; [exact F0|]. split; [exact L0|].
        split; [discriminate|]. intros _. eexists. split; reflexivity.
    + exists (Raise x), w1. split; [reflexivity|]. split; [exact F0|]. split; [exact L0|].
      split; [discriminate|]. intros _. exists x. now split.
Qed.

Lemma check_database_grows (p : string) (w : world) :
  grows w (snd (test_db.check_database p w)).
Proof.
  unfold test_db.check_database. unfold bind at 1.
  match goal with
  | |- context [with_connection p ?work w] =>
      pose proof (with_connection_grows p work w) as G;
      destruct (with_connection p work w) as [[a|x] w1]
  end; exact G.
Qed.

(** The paths through [main]. *)
Lemma main_paths (e : environ) (w : world) :
  test_db.main e w
  = match test_db._get_db_path_from_connection_file e w with
    | (Raise x, w1) => exit_status (Raise x, w1)
    | (Ok p, w1) =>
        if bool_decide (exists_in w1 p) then exit_status (test_db.check_database p w1)
        else
          match test_db._run_init_db e w1 with
          | (Raise x, w2) => exit_status (Raise x, w2)
          | (Ok _, w2) =>
              match test_db._get_db_path_from_connection_file e w2 with
              | (Raise x, w3) => exit_status (Raise x, w3)
              | (Ok p', w3) =>
                  if bool_decide (exists_in w3 p')
                  then exit_status (test_db.check_database p' w3)
                  else (Ok 1, w3)
              end
          end
    end.
Proof.
  assert (Hx : forall x (s : world),
             (if test_db.caught_by_main x then ret 1 s else (Raise x, s))
             = exit_status (Raise x, s))
    by (intros x s; unfold exit_status; now destruct (test_db.caught_by_main x)).
  assert (Hc : forall p s,
             match test_db.check_database p s with
             | (Ok a, s') => (Ok a, s')
             | (Raise x, s') => if test_db.caught_by_main x then ret 1 s' else (Raise x, s')
             end = exit_status (test_db.check_database p s))
    by (intros p s; destruct (test_db.check_database p s) as [[a|x] s']; [reflexivity|apply Hx]).
  unfold test_db.main, try_except. unfold bind at 1.
  destruct (test_db._get_db_path_from_connection_file e w) as [[p|x] w1]; [|apply Hx].
  unfold bind at 1, path_exists at 1. fold (exists_in w1 p).
  destruct (bool_decide (exists_in w1 p)); cbn [negb]; [apply Hc|].
  unfold bind at 1. destruct (test_db._run_init_db e w1) as [[[]|x] w2]; [|apply Hx].
  unfold bind at 1.
  destruct (test_db._get_db_path_from_connection_file e w2) as [[p'|x] w3]; [|apply Hx].
  unfold bind at 1, path_exists at 1. fold (exists_in w3 p').
  destruct (bool_decide (exists_in w3 p')); cbn [negb]; [apply Hc | reflexivity].
Qed.

Lemma exit_status_launches (e : environ) (n : nat) (w : world) (out : result Z * world) :
  launches e n w (snd out) -> launches e n w (snd (exit_status out)).
Proof. destruct out as [[code|x] s]; [auto|]. cbn. now destruct (test_db.caught_by_main x). Qed.

(** C8: the health check launches init_db.py at most once for a missing
    descriptor ([n1]) and at most once for a missing database file ([n2]),
    and not at all for an artifact that is there.  After the launch for the
    descriptor it looks for the descriptor again and exits with 1 when it is
    still missing; after the launch for the database file it resolves the
    path again, looks for the file again and exits with 1 when it is still
    missing.  (The launch itself needs init_db.py: without the script the
    attempt raises FileNotFoundError, which is an exit with 1 as well.) *)
Theorem C8_at_most_one_remediation_per_missing_artifact (e : environ) (w : world) :
  let descriptor := test_db.CONNECTION_FILE e in
  let resolve := test_db._get_db_path_from_connection_file e in
  exists n1 n2 : nat,
    launches e n1 w (snd (resolve w))
    /\ launches e (n1 + n2) w (snd (test_db.main e w))
    /\ n1 = (if bool_decide (exists_in w descriptor) then 0%nat else one_launch e w)
    /\ (~ exists_in (snd (resolve w)) descriptor ->
        test_db.main e w = (Ok 1, snd (resolve w)) /\ n2 = 0%nat)
    /\ match resolve w with
       | (Raise _, _) => n2 = 0%nat
       | (Ok p, w1) =>
           if bool_decide (exists_in w1 p) then n2 = 0%nat
           else
             n2 = one_launch e w1
             /\ match (test_db._run_init_db e ;; resolve) w1 with
                | (Ok p', w2) =>
                    launches e n2 w1 w2
                    /\ (~ exists_in w2 p' -> test_db.main e w = (Ok 1, w2))
                | (Raise x, w2) =>
                    launches e n2 w1 w2
                    /\ test_db.main e w
                       = (if test_db.caught_by_main x then Ok 1 else Raise x, w2)
                end
       end.
Proof.
  cbv zeta. rewrite !main_paths.
  destruct (resolve_spec e w) as (r & w1 & E & F & L & Hok & Hmiss).
  rewrite E. cbn [snd].
  exists (if bool_decide (exists_in w (test_db.CONNECTION_FILE e))
          then 0%nat else one_launch e w).
  destruct r as [p|x].
  - (* the path is resolved *)
    specialize (Hok p eq_refl).
    destruct (decide (exists_in w1 p)) as [Hp|Hp].
    + rewrite (bool_decide_eq_true_2 _ Hp). exists 0%nat. split; [exact L|].
      split; [|split; [reflexivity | split; [contradiction | reflexivity]]].
      apply exit_status_launches. rewrite Nat.add_0_r.
      rewrite <- (Nat.add_0_r (if bool_decide _ then _ else _)).
      exact (launches_trans _ _ _ _ _ _ L
               (launches_grows e _ _ (check_database_grows p w1))).
    + rewrite (bool_decide_eq_false_2 _ Hp). exists (one_launch e w1).
      destruct (run_init_db_spec e w1) as (r0 & w2 & E0 & F0 & L0 & G0).
      rewrite (bind_eq_of _ _ _ _ E0). rewrite E0.
      split; [exact L|].
      destruct r0 as [[]|x0].
      * destruct (resolve_with_descriptor e w2 (F0 _ Hok)) as (r2 & E2 & _).
        rewrite E2. destruct r2 as [p'|x2].
        -- destruct (decide (exists_in w2 p')) as [Hp'|Hp'].
           ++ rewrite (bool_decide_eq_true_2 _ Hp').
              split; [|split; [reflexivity | split; [contradiction|]]].
              { apply exit_status_launches.
                rewrite <- (Nat.add_0_r (one_launch e w1)), Nat.add_assoc.
                exact (launches_trans _ _ _ _ _ _ (launches_trans _ _ _ _ _ _ L L0)
                         (launches_grows e _ _ (check_database_grows p' w2))). }
              split; [reflexivity|]. split; [exact L0 | contradiction].
           ++ rewrite (bool_decide_eq_false_2 _ Hp'). cbn [snd].
              split; [exact (launches_trans _ _ _ _ _ _ L L0)|].
              split; [reflexivity|]. split; [contradiction|].
              split; [reflexivity|]. split; [exact L0 | reflexivity].
        -- split; [apply exit_status_launches; exact (launches_trans _ _ _ _ _ _ L L0)|].
           split; [reflexivity|]. split; [contradiction|].
           split; [reflexivity|]. split; [exact L0 | reflexivity].
      * split; [apply exit_status_launches; exact (launches_trans _ _ _ _ _ _ L L0)|].
        split; [reflexivity|]. split; [contradiction|].
        split; [reflexivity|]. split; [exact L0 | reflexivity].
  - (* the path is not resolved *)
    exists 0%nat. split; [exact L|].
    split; [apply exit_status_launches; rewrite Nat.add_0_r; exact L|].
    split; [reflexivity|]. split; [|reflexivity].
    intros Hd. destruct (Hmiss Hd) as (x' & Hx & Hc). injection Hx as <-.
    unfold exit_status. rewrite Hc. now split.
Qed.

(** On a fresh checkout the descriptor is missing: one launch, and the
    check passes. *)
Example main_launches_once_on_a_fresh_checkout :
  let e := {| BASE_DIR := "/srv/app"; SQLITE_DB := None; cwd := "/srv/app" |} in
  let out := test_db.main e (fresh_checkout "/srv/app" "2026-01-01 00:00:00") in
  fst out = Ok 0 /\ w_launched (snd out) = ["/srv/app/init_db.py"].
Proof. vm_compute. split; reflexivity. Qed.

(** With a database path that the descriptor does not give back, the
    database file is missing at the resolved path: a launch for the
    descriptor, a launch for the database file, then exit status 1. *)
Example main_gives_up_after_one_launch_for_each_artifact :
  let e := {| BASE_DIR := "/srv/app"; SQLITE_DB := Some "/data/app.db "; cwd := "/srv/app" |} in
  let out := test_db.main e (fresh_checkout "/srv/app" "2026-01-01 00:00:00") in
  fst out = Ok 1 /\ w_launched (snd out) = ["/srv/app/init_db.py"; "/srv/app/init_db.py"].
Proof. vm_compute. split; reflexivity. Qed.

(* ---------------------------------------------------------------------- *)
(** ** Cold start *)

(** A run on the empty store, whatever the time. *)
Lemma cold_start_run (now : string) :
  init_db.run now empty_db
  = (Ok [VInt 6; VInt 1; VInt 6; VInt 10; VInt 5], cold_start now).
Proof.
  unfold cold_start. rewrite (surjective_pairing (init_db.run now empty_db)) at 1.
  apply (f_equal (fun r => (r, snd (init_db.run now empty_db)))).
  vm_compute. reflexivity.
Qed.

Lemma cold_start_seeded (now : string) : cold_start_contents now (cold_start now).
Proof.
  unfold cold_start_contents.
  split; [vm_compute; reflexivity|]. split.
  { intros name.
    remember (table_names (cold_start now)) as names eqn:E.
    vm_compute in E. subst names. cbn. intuition. }
  split; [vm_compute; reflexivity|]. split; [discriminate|].
  split; [vm_compute; reflexivity|]. split; [vm_compute; reflexivity|].
  split; [vm_compute; reflexivity|].
  assert (E : map (fun r => field init_db.watch_history_schema r "user_id")
                (rows_of (cold_start now) "watch_history")
              = repeat (VInt 1) 5) by (vm_compute; reflexivity).
  apply List.Forall_forall. intros r Hr.
  apply (in_map (fun r => field init_db.watch_history_schema r "user_id")) in Hr.
  rewrite E in Hr. cbn in Hr. intuition.
Qed.


Lemma on_connection_cold (now : string) :
  exists c,
    init_db.on_connection (connect empty_db now)
    = (Ok [VInt 6; VInt 1; VInt 6; VInt 10; VInt 5], c)
    /\ c_disk c = cold_start now.
Proof.
  exists (snd (init_db.on_connection (connect empty_db now))). split.
  - rewrite (surjective_pairing (init_db.on_connection (connect empty_db now))) at 1.
    apply (f_equal (fun r => (r, snd (init_db.on_connection (connect empty_db now))))).
    vm_compute. reflexivity.
  - unfold cold_start, init_db.run.
    now destruct (init_db.on_connection (connect empty_db now)).
Qed.

(** init_db.py where no database is yet: the database file holds the
    cold-start store and the descriptor names it. *)
Lemma script_on_cold_start (e : environ) (w : world) :
  let p := init_db.DB_PATH e in
  (w_files w !! p = None \/ w_files w !! p = Some (Text "")) ->
  p ∉ w_unwritable w ->
  test_db.CONNECTION_FILE e ∉ w_unwritable w ->
  p <> test_db.CONNECTION_FILE e ->
  p <> ENV_FILE e ->
  exists w1,
    init_db.script e w = (Ok 0, w1)
    /\ w_files w1 !! p = Some (Database (cold_start (w_now w)))
    /\ w_files w1 !! test_db.CONNECTION_FILE e
       = Some (Text (init_db.connection_file_content (abspath (cwd e) p)))
    /\ w_unwritable w1 = w_unwritable w.
Proof.
  intros p Hfile Hp Hd Hpd Hpe.
  destruct (on_connection_cold (w_now w)) as (c & Hrun & Hdisk).
  assert (Hconn : with_connection p init_db.on_connection w
                  = (Ok [VInt 6; VInt 1; VInt 6; VInt 10; VInt 5],
                     set_file p (Database (cold_start (w_now w))) w)).
  { unfold with_connection. rewrite bool_decide_false by exact Hp.
    destruct Hfile as [-> | ->]; cbn [String.eqb]; rewrite Hrun, Hdisk; reflexivity. }
  unfold init_db.script, init_db.initialize_database. fold p.
  rewrite (bind_ok _ _ _ _ _ Hconn).
  set (w0 := set_file p (Database (cold_start (w_now w))) w).
  unfold init_db._write_connection_files, bind, try_except, write_file. fold p.
  change (path_join (BASE_DIR e) "db_connection.txt") with (test_db.CONNECTION_FILE e).
  fold (ENV_FILE e).
  rewrite bool_decide_false by exact Hd.
  set (content := init_db.connection_file_content (abspath (cwd e) p)).
  set (w1 := set_file (test_db.CONNECTION_FILE e) (Text content) w0).
  assert (H1 : w_files w1 !! p = Some (Database (cold_start (w_now w)))).
  { unfold w1, w0, set_file. cbn [w_files].
    rewrite lookup_insert_ne by congruence. apply lookup_insert_eq. }
  assert (H2 : w_files w1 !! test_db.CONNECTION_FILE e = Some (Text content))
    by apply lookup_insert_eq.
  destruct (bool_decide (ENV_FILE e ∈ w_unwritable w1)).
  - exists w1. cbn [init_db.any_exception ret]. repeat split; assumption || reflexivity.
  - eexists. split; [reflexivity|]. unfold set_file at 1 2 3. cbn [w_files w_unwritable].
    split; [rewrite lookup_insert_ne by congruence; exact H1|].
    split; [|reflexivity].
    rewrite lookup_insert_ne by (apply env_file_is_not_the_descriptor). exact H2.
Qed.

(** The checks on a database file that holds a cold-start store pass. *)
Lemma check_database_on_cold_start (p now : string) (w : world) :
  w_files w !! p = Some (Database (cold_start now)) ->
  p ∉ w_unwritable w ->
  fst (test_db.check_database p w) = Ok 0.
Proof.
  intros Hfile Hp. unfold test_db.check_database, bind at 1, with_connection.
  rewrite bool_decide_false by exact Hp. rewrite Hfile.
  match goal with
  | |- context [?work (connect (cold_start now) (w_now w))] =>
      assert (E : fst (work (connect (cold_start now) (w_now w))) = Ok tt)
        by (vm_compute; reflexivity);
      destruct (work (connect (cold_start now) (w_now w))) as [r c]
  end.
  cbn [fst] in E. subst r. reflexivity.
Qed.

Lemma resolve_reads_descriptor (e : environ) (w : world) (p : string) :
  plain_path p ->
  w_files w !! test_db.CONNECTION_FILE e = Some (Text (init_db.connection_file_content p)) ->
  test_db._get_db_path_from_connection_file e w = (Ok p, w).
Proof.
  intros Hp H. unfold test_db._get_db_path_from_connection_file, bind, path_exists,
    read_file, ret. rewrite H.
  rewrite bool_decide_true by eauto. cbn [negb].
  rewrite bool_decide_true by eauto. cbn [negb].
  rewrite H. now rewrite descriptor_round_trip.
Qed.

(** C2: where the database file is missing or empty, init_db.py exits with
    0 and leaves in the file the store of one run on the empty store: six
    tables, one user (demo_user, with a password hash that is not empty),
    six categories, ten videos and five watch_history rows, all of the demo
    user; these are also the statistics the run reads.  test_db.py, run
    afterwards, exits with 0.  The path of the database is one the
    descriptor carries (absolute, normalised, on one line, no whitespace at
    its end), the database and the descriptor can be written, and the
    database is not one of the two connection files. *)
Theorem C2_cold_start_is_seeded_and_passes_the_check (e : environ) (w : world) :
  let p := init_db.DB_PATH e in
  plain_path p ->
  (w_files w !! p = None \/ w_files w !! p = Some (Text "")) ->
  p ∉ w_unwritable w ->
  test_db.CONNECTION_FILE e ∉ w_unwritable w ->
  p <> test_db.CONNECTION_FILE e ->
  p <> ENV_FILE e ->
  exists w1 d,
    init_db.script e w = (Ok 0, w1)
    /\ w_files w1 !! p = Some (Database d)
    /\ init_db.run (w_now w) empty_db = (Ok [VInt 6; VInt 1; VInt 6; VInt 10; VInt 5], d)
    /\ length (table_names d) = 6%nat
    /\ (forall name, In name (table_names d) <-> In name declared_tables)
    /\ rows_of d "users" = [demo_user_row 1 (w_now w)]
    /\ field init_db.users_schema (demo_user_row 1 (w_now w)) "username" = VText "demo_user"
    /\ (exists h, field init_db.users_schema (demo_user_row 1 (w_now w)) "password_hash"
                  = VText h /\ h <> "")
    /\ length (rows_of d "categories") = 6%nat
    /\ length (rows_of d "videos") = 10%nat
    /\ length (rows_of d "watch_history") = 5%nat
    /\ Forall (fun r => field init_db.watch_history_schema r "user_id" = VInt 1)
         (rows_of d "watch_history")
    /\ fst (test_db.main e w1) = Ok 0.
Proof.
  intros p Hplain Hfile Hp Hd Hpd Hpe.
  destruct (script_on_cold_start e w Hfile Hp Hd Hpd Hpe) as (w1 & Hrun & Hdb & Hdesc & Hunw).
  destruct (cold_start_seeded (w_now w)) as (T1 & T2 & U & Hh & C & V & W1 & W2).
  exists w1, (cold_start (w_now w)).
  split; [exact Hrun|]. split; [exact Hdb|]. split; [apply cold_start_run|].
  split; [exact T1|]. split; [exact T2|]. split; [exact U|]. split; [reflexivity|].
  split; [exists init_db.password_hash; split; [reflexivity | exact Hh]|].
  split; [exact C|]. split; [exact V|]. split; [exact W1|]. split; [exact W2|].
  assert (Habs : abspath (cwd e) (init_db.DB_PATH e) = p).
  { destruct Hplain as (Ha & Hn & _). fold p. now rewrite abspath_absolute. }
  rewrite Habs in Hdesc.
  rewrite main_paths, (resolve_reads_descriptor e w1 p Hplain Hdesc).
  rewrite bool_decide_true by (exists (Database (cold_start (w_now w))); exact Hdb).
  assert (Hcheck : fst (test_db.check_database p w1) = Ok 0).
  { apply (check_database_on_cold_start p (w_now w)); [exact Hdb|]. now rewrite Hunw. }
  destruct (test_db.check_database p w1) as [r w2]. cbn [fst] in Hcheck. now subst r.
Qed.

Lemma C2_cold_start_witness :
  let e := {| BASE_DIR := "/srv/app"; SQLITE_DB := None; cwd := "/srv/app" |} in
  let w := fresh_checkout "/srv/app" "2026-01-01 00:00:00" in
  exists w1 d,
    init_db.script e w = (Ok 0, w1)
    /\ w_files w1 !! "/srv/app/myapp.db" = Some (Database d)
    /\ length (rows_of d "videos") = 10%nat
    /\ fst (test_db.main e w1) = Ok 0.
Proof.
  cbv zeta.
  destruct (C2_cold_start_is_seeded_and_passes_the_check
              {| BASE_DIR := "/srv/app"; SQLITE_DB := None; cwd := "/srv/app" |}
              (fresh_checkout "/srv/app" "2026-01-01 00:00:00"))
    as (w1 & d & Hrun & Hdb & _ & _ & _ & _ & _ & _ & _ & Hv & _ & _ & Hmain).
  - repeat split; vm_compute; reflexivity.
  - left. vm_compute. reflexivity.
  - cbn. apply not_elem_of_empty.
  - cbn. apply not_elem_of_empty.
  - intros H. vm_compute in H. discriminate H.
  - intros H. vm_compute in H. discriminate H.
  - exists w1, d. repeat split; assumption.
Defined.

(* ---------------------------------------------------------------------- *)
(** ** The schema step on stores of the declared schemas *)




















(* ---------------------------------------------------------------------- *)
(** ** categories, videos and video_categories: INSERT OR IGNORE *)





































(* ---------------------------------------------------------------------- *)
(** ** watch_history: the loop of the samples *)





(* ---------------------------------------------------------------------- *)
(** ** The table check of the health check *)

Lemma first_items {S} (names : list string) (s : S) :
  list_comp (map (fun name => [VText name]) names) (fun row => index row 0) s
  = (Ok (map VText names), s).
Proof.
  induction names as [|n names IH]; [reflexivity|].
  cbn [map list_comp]. unfold index at 1. cbn [nth_error].
  rewrite bind_ret. erewrite bind_ok; [|apply IH]. reflexivity.
Qed.

Lemma table_names_listed (d : db) (name : string) :
  In name (table_names d) <-> listed d name = true.
Proof.
  unfold table_names, listed. rewrite filter_In, andb_true_iff, bool_decide_eq_true.
  rewrite in_map_iff. split.
  - intros [([k t] & Hk & Hkt) Hu]. cbn in Hk. subst k.
    apply list_elem_of_In, elem_of_map_to_list in Hkt. split; eauto.
  - intros [[t Ht] Hu]. split; [|exact Hu]. exists (name, t). split; [reflexivity|].
    now apply list_elem_of_In, elem_of_map_to_list.
Qed.

Lemma not_in_existing (d : db) (name : string) :
  bool_decide (VText name ∉ (list_to_set (map VText (table_names d)) : gset value))
  = negb (listed d name).
Proof.
  destruct (listed d name) eqn:E; cbn [negb].
  - apply bool_decide_eq_false. intros H. apply H. apply elem_of_list_to_set.
    apply list_elem_of_In, in_map. now apply table_names_listed.
  - apply bool_decide_eq_true. intros H. apply elem_of_list_to_set in H.
    apply list_elem_of_In, in_map_iff in H as (n & Hn & Hin). injection Hn as <-.
    apply table_names_listed in Hin. congruence.
Qed.

(** What [_assert_tables_exist] returns or raises. *)
Lemma assert_tables_exist_run (required : list string) (c : connection) :
  test_db._assert_tables_exist required c
  = (match List.filter (fun t => negb (listed (current c) t)) required with
     | [] => Ok tt
     | missing => Raise (AssertionError ("Missing required tables: " ++ join ", " missing))
     end, set_rows c []).
Proof.
  unfold test_db._assert_tables_exist.
  erewrite bind_ok; [|apply execute_reads; reflexivity].
  rewrite (bind_ok _ _ _ _ _ (fetchall_rows _ _)).
  rewrite (bind_ok _ _ _ _ _ (first_items _ _)).
  cbv zeta.
  rewrite (filter_ext _ (fun t => negb (listed (current c) t)))
    by (intros t; apply not_in_existing).
  now destruct (List.filter _ required).
Qed.

(** X5: [_assert_tables_exist] only reads.  It returns exactly when every
    required name is a table of the store whose name is not one of SQLite's
    own (sqlite_...); otherwise it raises AssertionError, and the message
    lists, after "Missing required tables: " and separated by ", ", exactly
    the required names that are not such tables, in the order and with the
    repetitions of the required list. *)
Theorem X5_assert_tables_exist_lists_the_missing_tables (required : list string)
    (c : connection) :
  let out := test_db._assert_tables_exist required c in
  let missing := List.filter (fun t => negb (listed (current c) t)) required in
  current (snd out) = current c
  /\ c_disk (snd out) = c_disk c
  /\ (forall t, In t missing
                <-> In t required
                    /\ ~ (is_Some (d_tables (current c) !! t) /\ user_table t = true))
  /\ (fst out = Ok tt
      <-> forall t, In t required ->
            is_Some (d_tables (current c) !! t) /\ user_table t = true)
  /\ (missing <> [] ->
      fst out = Raise (AssertionError ("Missing required tables: " ++ join ", " missing))).
Proof.
  cbv zeta. rewrite assert_tables_exist_run. cbn [fst snd].
  assert (Hl : forall t, listed (current c) t = true
                         <-> is_Some (d_tables (current c) !! t) /\ user_table t = true).
  { intros t. unfold listed. now rewrite andb_true_iff, bool_decide_eq_true. }
  split; [reflexivity|]. split; [reflexivity|]. split.
  { intros t. rewrite filter_In, negb_true_iff, <- Hl.
    destruct (listed (current c) t); intuition congruence. }
  split.
  - split.
    + intros H t Hin. apply Hl.
      destruct (listed (current c) t) eqn:E; [reflexivity|]. exfalso.
      assert (Hm : In t (List.filter (fun t => negb (listed (current c) t)) required))
        by (apply filter_In; now rewrite E).
      destruct (List.filter _ required); [destruct Hm | discriminate H].
    + intros H. rewrite filter_none; [reflexivity|].
      intros t Hin. apply negb_false_iff, Hl, H, Hin.
  - intros H. destruct (List.filter _ required); [contradiction | reflexivity].
Qed.

(** With video_categories dropped from a seeded store, the check names it. *)
Example assert_tables_exist_names_a_dropped_table :
  let d := cold_start "2026-01-01 00:00:00" in
  let tampered := {| d_tables := delete "video_categories" (d_tables d);
                     d_indexes := d_indexes d |} in
  fst (test_db._assert_tables_exist test_db.required_tables
         (connect tampered "2026-02-01 00:00:00"))
  = Raise (AssertionError "Missing required tables: video_categories").
Proof. vm_compute. reflexivity. Qed.

(* ---------------------------------------------------------------------- *)
(** ** The connection files *)

(** X6: [_write_connection_files] never raises, whatever can or cannot be
    written.  It changes no file but db_connection.txt and
    db_visualizer/sqlite.env; a file of the two that cannot be opened for
    writing is left as it was and the other one is still written;
    sqlite.env, when written, holds the line
    [export SQLITE_DB="<absolute path>"]. *)
Theorem X6_write_connection_files_is_best_effort (e : environ) (w : world) :
  let p := abspath (cwd e) (init_db.DB_PATH e) in
  exists w',
    init_db._write_connection_files e w = (Ok tt, w')
    /\ w_unwritable w' = w_unwritable w /\ w_launched w' = w_launched w /\ w_now w' = w_now w
    /\ (forall q, q <> test_db.CONNECTION_FILE e -> q <> ENV_FILE e ->
          w_files w' !! q = w_files w !! q)
    /\ w_files w' !! test_db.CONNECTION_FILE e
       = (if bool_decide (test_db.CONNECTION_FILE e ∈ w_unwritable w)
          then w_files w !! test_db.CONNECTION_FILE e
          else Some (Text (init_db.connection_file_content p)))
    /\ w_files w' !! ENV_FILE e
       = (if bool_decide (ENV_FILE e ∈ w_unwritable w)
          then w_files w !! ENV_FILE e
          else Some (Text ("export SQLITE_DB=" ++ dquote ++ p ++ dquote ++ nl))).
Proof.
  cbv zeta. unfold init_db._write_connection_files, bind, try_except, write_file.
  change (path_join (BASE_DIR e) "db_connection.txt") with (test_db.CONNECTION_FILE e).
  fold (ENV_FILE e).
  pose proof (env_file_is_not_the_descriptor e) as Hne. fold (ENV_FILE e) in Hne.
  destruct (bool_decide (test_db.CONNECTION_FILE e ∈ w_unwritable w)) eqn:E1;
    cbn [init_db.any_exception ret w_unwritable set_file];
    destruct (bool_decide (ENV_FILE e ∈ w_unwritable w)) eqn:E2;
    eexists; (split; [reflexivity|]); cbn [w_unwritable w_launched w_now w_files set_file].
  all: split; [reflexivity|]; split; [reflexivity|]; split; [reflexivity|].
  - split; [reflexivity|]. split; reflexivity.
  - split; [intros q H1 H2; now rewrite lookup_insert_ne by (apply not_eq_sym; assumption)|].
    split; [now rewrite lookup_insert_ne by assumption | apply lookup_insert_eq].
  - split; [intros q H1 H2; now rewrite lookup_insert_ne by (apply not_eq_sym; assumption)|].
    split; [apply lookup_insert_eq
           | now rewrite lookup_insert_ne by (apply not_eq_sym; assumption)].
  - split; [intros q H1 H2; now rewrite !lookup_insert_ne by (apply not_eq_sym; assumption)|].
    split; [rewrite lookup_insert_ne by assumption; apply lookup_insert_eq
           | apply lookup_insert_eq].
Qed.

(* ---------------------------------------------------------------------- *)
(** ** The seeding steps, one after the other *)

















(* ---------------------------------------------------------------------- *)
(** ** A run on a store of the declared schemas *)























(* ---------------------------------------------------------------------- *)
(** ** The health check on the store a run leaves *)











(* ---------------------------------------------------------------------- *)
(** ** The descriptor file: which line gives the path *)

Lemma file_path_line_only (line : string) :
  is_file_path_line line = true -> is_connection_string_line line = false.
Proof.
  unfold is_file_path_line, is_connection_string_line. intros H.
  destruct (strip line) as [|a [|b [|c s]]]; cbn [startswith] in *;
    rewrite ?andb_false_r in H; try discriminate H.
  apply andb_prop in H as [_ H]. apply andb_prop in H as [_ H]. apply andb_prop in H as [H _].
  apply Ascii.eqb_eq in H. subst c. now rewrite !andb_false_r.
Qed.

Lemma scan_file_path (st : option string * option string) (line : string) :
  is_file_path_line line = true ->
  test_db.scan_line st line = (Some (line_value line), snd st).
Proof. intros H. unfold test_db.scan_line. unfold is_file_path_line in H. now rewrite H. Qed.

Lemma scan_connection_string (st : option string * option string) (line : string) :
  is_file_path_line line = false -> is_connection_string_line line = true ->
  test_db.scan_line st line = (fst st, Some (line_value line)).
Proof.
  intros H1 H2. unfold test_db.scan_line.
  unfold is_file_path_line in H1. unfold is_connection_string_line in H2. now rewrite H1, H2.
Qed.

Lemma scan_other (st : option string * option string) (line : string) :
  is_file_path_line line = false -> is_connection_string_line line = false ->
  test_db.scan_line st line = st.
Proof.
  intros H1 H2. unfold test_db.scan_line.
  unfold is_file_path_line in H1. unfold is_connection_string_line in H2. now rewrite H1, H2.
Qed.

Lemma scan_keeps_file_path (lines : list string) (st : option string * option string) :
  (forall l, In l lines -> is_file_path_line l = false) ->
  fst (fold_left test_db.scan_line lines st) = fst st.
Proof.
  revert st. induction lines as [|l lines IH]; intros st H; [reflexivity|].
  cbn [fold_left]. rewrite IH by (intros l' Hl'; apply H; now right).
  pose proof (H l ltac:(now left)) as H1.
  destruct (is_connection_string_line l) eqn:H2.
  - now rewrite scan_connection_string.
  - now rewrite scan_other.
Qed.

Lemma scan_keeps_connection_string (lines : list string) (st : option string * option string) :
  (forall l, In l lines -> is_connection_string_line l = false) ->
  snd (fold_left test_db.scan_line lines st) = snd st.
Proof.
  revert st. induction lines as [|l lines IH]; intros st H; [reflexivity|].
  cbn [fold_left]. rewrite IH by (intros l' Hl'; apply H; now right).
  pose proof (H l ltac:(now left)) as H2.
  destruct (is_file_path_line l) eqn:H1.
  - now rewrite scan_file_path.
  - now rewrite scan_other.
Qed.

Lemma startswith_app (p s : string) : startswith (p ++ s) p = true.
Proof.
  induction p as [|c p IH]; [now destruct s|]. simpl.
  now rewrite Ascii.eqb_refl, IH.
Qed.

Lemma drop_chars_app (p s : string) : drop_chars (String.length p) (p ++ s) = s.
Proof. induction p as [|c p IH]; [reflexivity | exact IH]. Qed.

(** X10: which line of db_connection.txt gives the path.  A file without
    a [# File path:] and without a [# Connection string:] line, an empty
    file for one, names no path: RuntimeError.  The last [# File path:]
    line gives the path when its value is not empty, whatever the
    connection strings say.  Without a [# File path:] line, the last
    [# Connection string:] line gives the path when it is an URL
    [sqlite:///<path>] with a path that is not empty.  The path read is
    made absolute. *)
Theorem X10_which_descriptor_line_gives_the_path (e : environ) (content : string) :
  ((forall l, In l (file_lines content) ->
      is_file_path_line l = false /\ is_connection_string_line l = false) ->
   test_db.parse_connection_file e content = Raise no_path)
  /\ (forall before l after,
        file_lines content = (before ++ l :: after)%list ->
        is_file_path_line l = true ->
        (forall l', In l' after -> is_file_path_line l' = false) ->
        line_value l <> "" ->
        test_db.parse_connection_file e content = Ok (abspath (cwd e) (line_value l)))
  /\ (forall before l after q,
        file_lines content = (before ++ l :: after)%list ->
        is_connection_string_line l = true ->
        (forall l', In l' after -> is_connection_string_line l' = false) ->
        (forall l', In l' (file_lines content) -> is_file_path_line l' = false) ->
        line_value l = "sqlite:///" ++ q ->
        test_db.parse_connection_file e content
        = if String.eqb q "" then Raise no_path else Ok (abspath (cwd e) q)).
Proof.
  unfold test_db.parse_connection_file.
  destruct (fold_left test_db.scan_line (file_lines content) (None, None))
    as [db_path connection_string] eqn:E.
  split; [|split].
  - intros H.
    assert (Hf : fst (fold_left test_db.scan_line (file_lines content) (None, None)) = None)
      by (apply (scan_keeps_file_path _ (None, None)); intros l Hl; apply (H l Hl)).
    assert (Hs : snd (fold_left test_db.scan_line (file_lines content) (None, None)) = None)
      by (apply (scan_keeps_connection_string _ (None, None)); intros l Hl; apply (H l Hl)).
    rewrite E in Hf, Hs. cbn [fst snd] in Hf, Hs. subst. reflexivity.
  - intros before l after Hlines Hl Hafter Hvalue.
    assert (Hf : fst (fold_left test_db.scan_line (file_lines content) (None, None))
                 = Some (line_value l)).
    { rewrite Hlines, fold_left_app. cbn [fold_left].
      rewrite (scan_keeps_file_path after _ Hafter). now rewrite scan_file_path. }
    rewrite E in Hf. cbn [fst] in Hf. subst db_path.
    apply String.eqb_neq in Hvalue.
    destruct connection_string as [cs|]; cbn [test_db.falsy]; rewrite Hvalue;
      cbn [andb]; now rewrite ?Hvalue.
  - intros before l after q Hlines Hl Hafter Hnone Hvalue.
    assert (Hf : fst (fold_left test_db.scan_line (file_lines content) (None, None)) = None)
      by (apply (scan_keeps_file_path _ (None, None)); exact Hnone).
    assert (Hs : snd (fold_left test_db.scan_line (file_lines content) (None, None))
                 = Some ("sqlite:///" ++ q)).
    { rewrite Hlines, fold_left_app. cbn [fold_left].
      rewrite (scan_keeps_connection_string after _ Hafter).
      rewrite scan_connection_string; [now rewrite Hvalue | | exact Hl].
      apply Hnone. rewrite Hlines. apply in_or_app. right. now left. }
    rewrite E in Hf, Hs. cbn [fst snd] in Hf, Hs. subst db_path connection_string.
    cbn [test_db.falsy andb negb]. rewrite (startswith_app "sqlite:///" q).
    change (String.eqb ("sqlite:///" ++ q) "") with false. cbn [negb andb].
    rewrite (drop_chars_app "sqlite:///" q). now destruct (String.eqb q "").
Qed.

Lemma X10_fallback_witness :
  test_db.parse_connection_file
    {| BASE_DIR := "/srv/app"; SQLITE_DB := None; cwd := "/srv/app" |}
    ("# SQLite connection methods:" ++ nl ++ "# Connection string: sqlite:///data/app.db" ++ nl)
  = Ok "/srv/app/data/app.db".
Proof.
  refine (proj2 (proj2 (X10_which_descriptor_line_gives_the_path _ _))
            ["# SQLite connection methods:" ++ nl]
            ("# Connection string: sqlite:///data/app.db" ++ nl) [] "data/app.db" _ _ _ _ _).
  - reflexivity.
  - reflexivity.
  - intros l' [].
  - intros l' Hl'. vm_compute in Hl'. destruct Hl' as [<-|[<-|[]]]; reflexivity.
  - reflexivity.
Defined.

(* ---------------------------------------------------------------------- *)
(** ** The additive migration: where it fails *)









(* ---------------------------------------------------------------------- *)
(** ** init_db.py, then test_db.py *)





(* ---------------------------------------------------------------------- *)
(** ** The exit status of the health check *)

Lemma filter_nil_all {A} (f : A -> bool) (l : list A) :
  List.filter f l = [] -> forall x, In x l -> f x = false.
Proof.
  intros H x Hx. destruct (f x) eqn:E; [|reflexivity].
  assert (Hin : In x (List.filter f l)) by now apply filter_In.
  rewrite H in Hin. destruct Hin.
Qed.

(** [check_database] returns only 0, and only on a database file in which
    the required tables are found and the seed-data checks hold. *)
Lemma check_database_returns (p : string) (w : world) (code : Z) :
  fst (test_db.check_database p w) = Ok code ->
  code = 0
  /\ exists d,
       w_files w !! p = Some (Database d)
       /\ (forall t, In t test_db.required_tables -> listed d t = true)
       /\ fst (test_db._assert_seed_data (connect d (w_now w))) = Ok tt.
Proof.
  unfold test_db.check_database, bind at 1, with_connection.
  destruct (bool_decide (p ∈ w_unwritable w)); [discriminate|].
  destruct (w_files w !! p) as [[content|d]|] eqn:Hfile.
  - destruct (String.eqb content ""); [|discriminate].
    intros H. exfalso. vm_compute in H. discriminate H.
  - set (c := connect d (w_now w)).
    erewrite bind_ok; [|apply execute_reads; reflexivity].
    erewrite bind_ok; [|reflexivity].
    rewrite (bind_eq_of _ _ _ _ (assert_tables_exist_run _ _)).
    destruct (List.filter _ test_db.required_tables) as [|t0 missing] eqn:Hmissing;
      [|discriminate].
    match goal with
    | |- context [(test_db._assert_seed_data ;; close) ?c0] => change c0 with c
    end.
    match type of Hmissing with
    | context [listed (current ?c0)] => change (current c0) with d in Hmissing
    end.
    destruct (test_db._assert_seed_data c) as [[[]|x] c'] eqn:Hdata;
      rewrite (bind_eq_of _ _ _ _ Hdata); [|discriminate].
    cbn. intros H. injection H as <-. split; [reflexivity|]. exists d.
    split; [reflexivity|]. split; [|fold c; now rewrite Hdata].
    intros t Ht. pose proof (filter_nil_all _ _ Hmissing t Ht) as Hl.
    now apply negb_false_iff in Hl.
  - intros H. exfalso. vm_compute in H. discriminate H.
Qed.

(** X13: the exit status of the health check.  [main] returns 0 or 1, or
    lets through an exception that is none of those it catches.  It returns
    0 only after [check_database] returned on the path it resolved: that
    path then names a database file in which the six required tables are
    found and on which the seed-data checks hold. *)
Theorem X13_main_exits_with_0_only_after_the_checks_passed (e : environ) (w : world) :
  match fst (test_db.main e w) with
  | Ok code =>
      (code = 0 \/ code = 1)
      /\ (code = 0 ->
          exists p d w1,
            test_db.check_database p w1 = (Ok 0, snd (test_db.main e w))
            /\ w_files w1 !! p = Some (Database d)
            /\ (forall t, In t test_db.required_tables -> listed d t = true)
            /\ fst (test_db._assert_seed_data (connect d (w_now w1))) = Ok tt)
  | Raise x => test_db.caught_by_main x = false
  end.
Proof.
  assert (Hcheck : forall p w1,
             match fst (exit_status (test_db.check_database p w1)) with
             | Ok code =>
                 (code = 0 \/ code = 1)
                 /\ (code = 0 ->
                     exists q d w1',
                       test_db.check_database q w1'
                       = (Ok 0, snd (exit_status (test_db.check_database p w1)))
                       /\ w_files w1' !! q = Some (Database d)
                       /\ (forall t, In t test_db.required_tables -> listed d t = true)
                       /\ fst (test_db._assert_seed_data (connect d (w_now w1'))) = Ok tt)
             | Raise x => test_db.caught_by_main x = false
             end).
  { intros p w1. pose proof (check_database_returns p w1) as Hret.
    destruct (test_db.check_database p w1) as [[code|x] w2] eqn:E; cbn [exit_status fst snd].
    - destruct (Hret code eq_refl) as (-> & d & Hfile & Htables & Hdata).
      split; [now left|]. intros _. exists p, d, w1. auto.
    - destruct (test_db.caught_by_main x) eqn:Ec; [|exact Ec].
      split; [now right | discriminate]. }
  assert (Hraise : forall x (s : world),
             match fst (exit_status (Raise x, s)) with
             | Ok code =>
                 (code = 0 \/ code = 1)
                 /\ (code = 0 ->
                     exists p d w1',
                       test_db.check_database p w1' = (Ok 0, snd (exit_status (Raise x, s)))
                       /\ w_files w1' !! p = Some (Database d)
                       /\ (forall t, In t test_db.required_tables -> listed d t = true)
                       /\ fst (test_db._assert_seed_data (connect d (w_now w1'))) = Ok tt)
             | Raise x => test_db.caught_by_main x = false
             end).
  { intros x s. cbn [exit_status fst].
    destruct (test_db.caught_by_main x) eqn:Ec; [|exact Ec].
    split; [now right | discriminate]. }
  rewrite main_paths.
  destruct (test_db._get_db_path_from_connection_file e w) as [[p|x] w1]; [|apply Hraise].
  destruct (bool_decide (exists_in w1 p)); [apply Hcheck|].
  destruct (test_db._run_init_db e w1) as [[[]|x] w2]; [|apply Hraise].
  destruct (test_db._get_db_path_from_connection_file e w2) as [[p'|x] w3]; [|apply Hraise].
  destruct (bool_decide (exists_in w3 p')); [apply Hcheck|].
  cbn [fst]. split; [now right | discriminate].
Qed.

(* ---------------------------------------------------------------------- *)
(** ** app_info: what a run writes and what it leaves *)



(* ---------------------------------------------------------------------- *)
(** ** What a run leaves of the rows it finds *)








(* ---------------------------------------------------------------------- *)
(** ** The path of the database file *)

Lemma startswith_nil (s : string) : startswith s "" = true.
Proof. now destruct s. Qed.

Lemma isabs_cons (q : string) : isabs (String "/" q) = true.
Proof. unfold isabs. cbn [startswith]. now rewrite startswith_nil. Qed.

Lemma isabs_app (a b : string) : isabs a = true -> isabs (a ++ b) = true.
Proof. intros H. destruct (isabs_inv a H) as [q ->]. apply isabs_cons. Qed.

Lemma isabs_normpath (p : string) : isabs p = true -> isabs (normpath p) = true.
Proof.
  intros H. destruct (isabs_inv p H) as [q ->]. unfold normpath.
  change (String.eqb (String "/" q) "") with false. cbv iota.
  fold (isabs (String "/" q)). rewrite isabs_cons. cbv zeta.
  destruct (startswith (String "/" q) "//" && negb (startswith (String "/" q) "///"))%bool;
    apply isabs_cons.
Qed.

Lemma isabs_path_join (a b : string) : isabs a = true -> isabs (path_join a b) = true.
Proof.
  intros H. unfold path_join. destruct (isabs b) eqn:Hb; [exact Hb|].
  destruct (String.eqb a "" || endswith_slash a)%bool; now apply isabs_app.
Qed.

Lemma isabs_abspath (cwd p : string) : isabs cwd = true -> isabs (abspath cwd p) = true.
Proof.
  intros H. unfold abspath. apply isabs_normpath.
  destruct (isabs p) eqn:Hp; [exact Hp | now apply isabs_path_join].
Qed.

(** X16: the path of the database file is absolute, whatever SQLITE_DB
    holds: a relative path is resolved in the working directory of the
    process, and an empty value counts as none, which gives myapp.db beside
    the script.  The path written to the connection files is absolute too. *)
Theorem X16_the_database_path_is_absolute (e : environ) :
  isabs (BASE_DIR e) = true ->
  isabs (cwd e) = true ->
  isabs (init_db.DB_PATH e) = true
  /\ isabs (abspath (cwd e) (init_db.DB_PATH e)) = true
  /\ (SQLITE_DB e = None \/ SQLITE_DB e = Some "" ->
      init_db.DB_PATH e = path_join (BASE_DIR e) "myapp.db")
  /\ (forall s, SQLITE_DB e = Some s -> s <> "" -> isabs s = false ->
      init_db.DB_PATH e = normpath (path_join (cwd e) s)).
Proof.
  intros Hb Hc. split; [|split; [now apply isabs_abspath|split]].
  - unfold init_db.DB_PATH. destruct (SQLITE_DB e) as [s|]; [|now apply isabs_path_join].
    destruct (String.eqb s ""); [now apply isabs_path_join | now apply isabs_abspath].
  - unfold init_db.DB_PATH. intros [-> | ->]; reflexivity.
  - intros s Hs Hne Hrel. unfold init_db.DB_PATH, abspath. rewrite Hs, Hrel.
    apply String.eqb_neq in Hne. now rewrite Hne.
Qed.

Lemma X16_the_database_path_witness :
  init_db.DB_PATH {| BASE_DIR := "/srv/app"; SQLITE_DB := Some "data/../app.db"; cwd := "/home/u" |}
  = "/home/u/app.db".
Proof.
  destruct (X16_the_database_path_is_absolute
              {| BASE_DIR := "/srv/app"; SQLITE_DB := Some "data/../app.db"; cwd := "/home/u" |})
    as (_ & _ & _ & H); [reflexivity | reflexivity |].
  rewrite (H "data/../app.db"); [vm_compute; reflexivity | reflexivity | discriminate | reflexivity].
Defined.
